(** * Altitude-triggered micro-meteorite collector: the two door controllers

    A shallow embedding of
      - [src/experiments/micro-meterorite/collector_arduino.py]  (module [Arduino])
      - [src/experiments/micro-meterorite/meteorite_collector.py] (module [RaspberryPi])
    and the properties of their polling loops.

    Conventions of the embedding.
      - The hardware (BME280 sensor, servo, GPIO) is an oracle [World]: one
        infinite sequence of outcomes per kind of hardware call, consumed in
        call order.  Every hardware call and every [time.sleep] is recorded
        as an [event]; [print] calls are not recorded.
      - Python control flow is kept: a computation ends normally, by a raised
        exception, or by [continue]; [while True] is unrolled a given number
        of cycles, after which the computation is [StillLooping].
      - Hardware failures are [Exception] subclasses.  Signals that are not
        ([KeyboardInterrupt]) are the external cancellation and have no
        counterpart here. *)

From Stdlib Require Import ZArith QArith Qminmax List Bool Lia Lqa.
Import ListNotations.

Set Implicit Arguments.

(** ** Python values the controllers compare *)

(** A Python [float], as far as the comparison operators can tell: a finite
    float is a rational number, and the three special values compare as
    IEEE 754 says ([nan] is neither above nor below anything). *)
Inductive pyfloat : Type :=
| Finite (q : Q)
| PosInf
| NegInf
| NaN.

(** [x > k] for a float [x] and a finite number [k]. *)
Definition py_gt (x : pyfloat) (k : Q) : bool :=
  match x with
  | Finite q => negb (Qle_bool q k)
  | PosInf => true
  | NegInf => false
  | NaN => false
  end.

(** [x < k] for a float [x] and a finite number [k]. *)
Definition py_lt (x : pyfloat) (k : Q) : bool :=
  match x with
  | Finite q => negb (Qle_bool k q)
  | PosInf => false
  | NegInf => true
  | NaN => false
  end.

(** The exception classes the programs tell apart.  [RuntimeError],
    [UnboundLocalError] and [OtherException] are subclasses of [Exception];
    [SystemExit] is not. *)
Inductive exn : Type :=
| RuntimeError
| UnboundLocalError
| OtherException
| SystemExit.

Definition isinstance_RuntimeError (e : exn) : bool :=
  match e with RuntimeError => true | _ => false end.

Definition isinstance_Exception (e : exn) : bool :=
  match e with SystemExit => false | _ => true end.

(** ** The hardware oracle and the observable events *)

(** What reading [bme280.altitude] can do. *)
Inductive read_outcome : Type :=
| Reads (a : pyfloat)
| ReadsNone
| RaisesRuntimeError
| RaisesException.

Inductive event : Type :=
| Sleep (seconds : Z)
| SensorInit (ok : bool)
| ServoInit (ok : bool)
| ServoAngle (angle : Z) (ok : bool)
| DutyCycle (duty : Q) (ok : bool)
| AltitudeRead (r : read_outcome)
| GpioCleanup.

Record World : Type := mkWorld {
  sensor_init : nat -> bool;
  servo_init : nat -> bool;
  servo_write : nat -> bool;
  altitude : nat -> read_outcome
}.

Definition later {A : Type} (f : nat -> A) : nat -> A := fun n => f (S n).

(** A finite script followed by a constant outcome. *)
Definition script {A : Type} (l : list A) (rest : A) : nat -> A :=
  fun n => nth n l rest.

(** The module-level thresholds of both scripts. *)
Record Config : Type := mkConfig {
  ALTITUDE_OPEN : Q;
  ALTITUDE_CLOSE : Q
}.

(** [ALTITUDE_OPEN = 20000], [ALTITUDE_CLOSE = 18000] in both files. *)
Definition source_config : Config :=
  {| ALTITUDE_OPEN := 20000; ALTITUDE_CLOSE := 18000 |}.

Definition SERVO_OPEN_ANGLE : Z := 90.
Definition SERVO_CLOSED_ANGLE : Z := 0.

(** ** Computations with state, exceptions, [continue] and an event trace *)

Inductive outcome (A : Type) : Type :=
| Normal (a : A)
| Raised (e : exn)
| Continued
| StillLooping.

Arguments Normal {A} a.
Arguments Raised {A} e.
Arguments Continued {A}.
Arguments StillLooping {A}.

Record result (V A : Type) : Type := mkResult {
  out : outcome A;
  vars : V;
  hw : World;
  trace : list event
}.

Definition M (V A : Type) : Type := V -> World -> result V A.

Section Monad.
Variable V : Type.

Definition ret {A} (a : A) : M V A :=
  fun v w => mkResult (Normal a) v w [].

Definition bind {A B} (m : M V A) (k : A -> M V B) : M V B :=
  fun v w =>
    match m v w with
    | mkResult (Normal a) v1 w1 t1 =>
        match k a v1 w1 with
        | mkResult o v2 w2 t2 => mkResult o v2 w2 (t1 ++ t2)
        end
    | mkResult (Raised e) v1 w1 t1 => mkResult (Raised e) v1 w1 t1
    | mkResult Continued v1 w1 t1 => mkResult Continued v1 w1 t1
    | mkResult StillLooping v1 w1 t1 => mkResult StillLooping v1 w1 t1
    end.

Definition raise {A} (e : exn) : M V A :=
  fun v w => mkResult (Raised e) v w [].

(** The [continue] statement. *)
Definition continue {A} : M V A :=
  fun v w => mkResult Continued v w [].

Definition load : M V V :=
  fun v w => mkResult (Normal v) v w [].

Definition store (f : V -> V) : M V unit :=
  fun v w => mkResult (Normal tt) (f v) w [].

Definition emit (e : event) : M V unit :=
  fun v w => mkResult (Normal tt) v w [e].

(** [time.sleep(seconds)] *)
Definition sleep (seconds : Z) : M V unit := emit (Sleep seconds).

(** [try: body  except ...: handler]: [catches e] says whether one of the
    [except] clauses matches the class of [e]; [continue] in the body is
    not an exception and passes through. *)
Definition try_except {A} (body : M V A) (catches : exn -> bool)
    (handler : exn -> M V A) : M V A :=
  fun v w =>
    match body v w with
    | mkResult (Raised e) v1 w1 t1 =>
        if catches e then
          match handler e v1 w1 with
          | mkResult o v2 w2 t2 => mkResult o v2 w2 (t1 ++ t2)
          end
        else mkResult (Raised e) v1 w1 t1
    | r => r
    end.

(** [while True: body], unrolled [cycles] times.  [continue] and a normal
    end of the body both start the next cycle; an exception leaves the
    loop. *)
Fixpoint while_true (cycles : nat) (body : M V unit) : M V unit :=
  match cycles with
  | O => fun v w => mkResult StillLooping v w []
  | S n =>
      fun v w =>
        match body v w with
        | mkResult (Normal _) v1 w1 t1
        | mkResult Continued v1 w1 t1 =>
            match while_true n body v1 w1 with
            | mkResult o v2 w2 t2 => mkResult o v2 w2 (t1 ++ t2)
            end
        | mkResult (Raised e) v1 w1 t1 => mkResult (Raised e) v1 w1 t1
        | mkResult StillLooping v1 w1 t1 => mkResult StillLooping v1 w1 t1
        end
  end.

(** Hardware calls: take the next outcome of the kind and record it. *)
Definition hw_sensor_init : M V bool :=
  fun v w =>
    let ok := sensor_init w 0%nat in
    mkResult (Normal ok) v
      (mkWorld (later (sensor_init w)) (servo_init w) (servo_write w) (altitude w))
      [SensorInit ok].

Definition hw_servo_init : M V bool :=
  fun v w =>
    let ok := servo_init w 0%nat in
    mkResult (Normal ok) v
      (mkWorld (sensor_init w) (later (servo_init w)) (servo_write w) (altitude w))
      [ServoInit ok].

Definition hw_servo_write (e : bool -> event) : M V bool :=
  fun v w =>
    let ok := servo_write w 0%nat in
    mkResult (Normal ok) v
      (mkWorld (sensor_init w) (servo_init w) (later (servo_write w)) (altitude w))
      [e ok].

Definition hw_altitude : M V read_outcome :=
  fun v w =>
    let r := altitude w 0%nat in
    mkResult (Normal r) v
      (mkWorld (sensor_init w) (servo_init w) (servo_write w) (later (altitude w)))
      [AltitudeRead r].
End Monad.

Arguments ret {V A} a.
Arguments bind {V A B} m k.
Arguments raise {V A} e.
Arguments continue {V A}.
Arguments load {V}.
Arguments store {V} f.
Arguments emit {V} e.
Arguments sleep {V} seconds.
Arguments try_except {V A} body catches handler.
Arguments while_true {V} cycles body.
Arguments hw_sensor_init {V}.
Arguments hw_servo_init {V}.
Arguments hw_servo_write {V} e.
Arguments hw_altitude {V}.

Declare Scope py_scope.
Delimit Scope py_scope with py.
Notation "x <- m ;; k" := (bind m (fun x => k))
  (at level 61, m at next level, right associativity) : py_scope.
Notation "m ;; k" := (bind m (fun _ => k))
  (at level 61, right associativity) : py_scope.
Local Open Scope py_scope.

(** Total time slept in a trace. *)
Fixpoint slept (t : list event) : Z :=
  match t with
  | [] => 0
  | Sleep s :: t' => s + slept t'
  | _ :: t' => slept t'
  end.

Definition is_actuator_event (e : event) : bool :=
  match e with
  | ServoAngle _ _ | DutyCycle _ _ => true
  | _ => false
  end.

Definition is_altitude_event (e : event) : bool :=
  match e with AltitudeRead _ => true | _ => false end.

(** ** The controller as the specification words it *)

Inductive ActuatorState : Type :=
| Open
| Closed.

(** The logical state behind the flag [collector_is_open]. *)
Definition state_of (collector_is_open : bool) : ActuatorState :=
  if collector_is_open then Open else Closed.

(** The transition rule in the specification's words: Closed and altitude
    above the open threshold commands Open; Open and altitude below the
    close threshold commands Close; otherwise no command. *)
Definition transition_rule (cfg : Config) (s : ActuatorState) (reading : pyfloat)
    : option ActuatorState :=
  match s with
  | Closed => if py_gt reading (ALTITUDE_OPEN cfg) then Some Open else None
  | Open => if py_lt reading (ALTITUDE_CLOSE cfg) then Some Closed else None
  end.

Definition issued (c : option ActuatorState) : list ActuatorState :=
  match c with
  | Some target => [target]
  | None => []
  end.

(** The actuator events of a trace that answer an altitude reading: those
    that directly follow the read. *)
Fixpoint triggered (t : list event) : list event :=
  match t with
  | [] => []
  | AltitudeRead _ :: t' =>
      match t' with
      | e :: _ => if is_actuator_event e then e :: triggered t' else triggered t'
      | [] => []
      end
  | _ :: t' => triggered t'
  end.

(** ** collector_arduino.py *)
Module Arduino.

(** How [main_loop] sees its own name [collector_servo].  The function
    declares [global collector_is_open, bme280_sensor] only (line 103) and
    assigns [collector_servo = None] (line 174), so inside [main_loop] the
    name is a local variable: unbound until that assignment has run, and
    [None] afterwards.  [setup_servo], [open_collector_door] and
    [close_collector_door] declare the name [global] and use the
    module-level variable. *)
Inductive binding : Type :=
| Unbound
| BoundNone.

(** Module-level variables, and the one local of [main_loop].  A handle is
    recorded by its truth value: [true] for a device object, [false] for
    [None]. *)
Record Vars : Type := mkVars {
  collector_is_open : bool;
  bme280_sensor : bool;
  collector_servo : bool;
  local_collector_servo : binding
}.

Definition set_collector_is_open (b : bool) (v : Vars) : Vars :=
  mkVars b (bme280_sensor v) (collector_servo v) (local_collector_servo v).
Definition set_bme280_sensor (b : bool) (v : Vars) : Vars :=
  mkVars (collector_is_open v) b (collector_servo v) (local_collector_servo v).
Definition set_collector_servo (b : bool) (v : Vars) : Vars :=
  mkVars (collector_is_open v) (bme280_sensor v) b (local_collector_servo v).
Definition set_local_collector_servo (b : binding) (v : Vars) : Vars :=
  mkVars (collector_is_open v) (bme280_sensor v) (collector_servo v) b.

(** The module as loaded: lines 31-33. *)
Definition initial : Vars := mkVars false false false Unbound.

(** [initialize_bme280()]: the whole [try] block is one hardware outcome. *)
Definition initialize_bme280 : M Vars bool :=
  ok <- hw_sensor_init ;;
  if ok then store (set_bme280_sensor true) ;; ret true
  else store (set_bme280_sensor false) ;; ret false.

(** [setup_servo()]: the whole [try] block (PWM output, servo object,
    initial angle) is one hardware outcome. *)
Definition setup_servo : M Vars bool :=
  ok <- hw_servo_init ;;
  if ok then store (set_collector_servo true) ;; ret true
  else store (set_collector_servo false) ;; ret false.

(** [open_collector_door()] *)
Definition open_collector_door : M Vars unit :=
  v <- load ;;
  if collector_servo v then
    ok <- hw_servo_write (ServoAngle SERVO_OPEN_ANGLE) ;;
    if ok then store (set_collector_is_open true)
    else ret tt
  else ret tt.

(** [close_collector_door()] *)
Definition close_collector_door : M Vars unit :=
  v <- load ;;
  if collector_servo v then
    ok <- hw_servo_write (ServoAngle SERVO_CLOSED_ANGLE) ;;
    if ok then store (set_collector_is_open false)
    else ret tt
  else ret tt.

(** Reading the local [collector_servo] of [main_loop] (line 131). *)
Definition load_local_collector_servo : M Vars bool :=
  v <- load ;;
  match local_collector_servo v with
  | Unbound => raise UnboundLocalError
  | BoundNone => ret false
  end.

(** [bme280_sensor.altitude] (line 144); on [None] the attribute access
    raises [AttributeError]. *)
Definition read_altitude : M Vars (option pyfloat) :=
  v <- load ;;
  if bme280_sensor v then
    r <- hw_altitude ;;
    match r with
    | Reads a => ret (Some a)
    | ReadsNone => ret None
    | RaisesRuntimeError => raise RuntimeError
    | RaisesException => raise OtherException
    end
  else raise OtherException.

Section WithConfig.
Variable cfg : Config.

(** Lines 152-160: the hysteresis rule. *)
Definition evaluate (current_altitude : pyfloat) : M Vars unit :=
  v <- load ;;
  if negb (collector_is_open v) && py_gt current_altitude (ALTITUDE_OPEN cfg)
  then open_collector_door
  else if collector_is_open v && py_lt current_altitude (ALTITUDE_CLOSE cfg)
  then close_collector_door
  else ret tt.

(** Lines 144-160: the body of the [try]. *)
Definition try_body : M Vars unit :=
  current_altitude <- read_altitude ;;
  match current_altitude with
  | None => sleep 10 ;; continue
  | Some a => evaluate a
  end.

(** Lines 162-175: the two [except] clauses. *)
Definition handler (e : exn) : M Vars unit :=
  if isinstance_RuntimeError e then
    sleep 5 ;;
    store (set_bme280_sensor false)
  else
    store (set_bme280_sensor false) ;;
    store (set_local_collector_servo BoundNone) ;;
    sleep 10.

(** Lines 123-129. *)
Definition reinit_sensor : M Vars unit :=
  v <- load ;;
  if negb (bme280_sensor v) then
    sleep 5 ;;
    ok <- initialize_bme280 ;;
    if negb ok then sleep 25 ;; continue else ret tt
  else ret tt.

(** Lines 131-140. *)
Definition reinit_servo : M Vars unit :=
  servo <- load_local_collector_servo ;;
  if negb servo then
    sleep 5 ;;
    ok <- setup_servo ;;
    if negb ok then sleep 25 ;; continue
    else close_collector_door
  else ret tt.

(** Lines 143-175: the [try] statement with its two [except] clauses. *)
Definition try_statement : M Vars unit :=
  try_except try_body isinstance_Exception handler.

(** Lines 122-177: one pass through the body of [while True]. *)
Definition cycle : M Vars unit :=
  reinit_sensor ;;
  reinit_servo ;;
  try_statement ;;
  sleep 15.

(** Lines 106-115. *)
Definition startup : M Vars unit :=
  _ <- initialize_bme280 ;;
  ok <- setup_servo ;;
  if negb ok then ret tt else close_collector_door.

(** [main_loop()], with the loop unrolled [cycles] times. *)
Definition main_loop (cycles : nat) : M Vars unit :=
  startup ;;
  while_true cycles cycle.
End WithConfig.

(** The door commands a trace shows, each with the target it asks for. *)
Definition target_of_angle (angle : Z) : option ActuatorState :=
  if (angle =? SERVO_OPEN_ANGLE)%Z then Some Open
  else if (angle =? SERVO_CLOSED_ANGLE)%Z then Some Closed
  else None.

Fixpoint commanded (t : list event) : list ActuatorState :=
  match t with
  | [] => []
  | ServoAngle angle _ :: t' => issued (target_of_angle angle) ++ commanded t'
  | _ :: t' => commanded t'
  end.

(** The flag a trace accounts for: each successful door command sets it
    to the commanded target, nothing else touches it. *)
Definition observe (flag : bool) (e : event) : bool :=
  match e with
  | ServoAngle angle true =>
      match target_of_angle angle with
      | Some Open => true
      | Some Closed => false
      | None => flag
      end
  | _ => flag
  end.

Definition replay (flag : bool) (t : list event) : bool :=
  fold_left observe t flag.

End Arduino.

(** ** meteorite_collector.py *)
Module RaspberryPi.

(** Module-level variables (lines 28-29); [pwm] by its truth value. *)
Record Vars : Type := mkVars {
  collector_is_open : bool;
  pwm : bool
}.

Definition set_collector_is_open (b : bool) (v : Vars) : Vars :=
  mkVars b (pwm v).
Definition set_pwm (b : bool) (v : Vars) : Vars :=
  mkVars (collector_is_open v) b.

Definition initial : Vars := mkVars false false.

(** [x < y] on exact numbers. *)
Definition Qlt_bool (x y : Q) : bool := negb (Qle_bool y x).

(** [angle_to_duty_cycle(angle)] (lines 64-75), with Python's float
    arithmetic read as exact arithmetic on rationals. *)
Definition angle_to_duty_cycle (angle : Q) : Q :=
  let angle := if Qlt_bool angle 0 then 0 else angle in
  let angle := if Qlt_bool 180 angle then 180 else angle in
  2.5 + (angle / 180) * 10.

(** The clamp in words: the angle brought into the interval from 0 to
    180. *)
Definition clamped (angle : Q) : Q := Qmax 0 (Qmin angle 180).

(** [initialize_bme280()]: returns the sensor object or [None]. *)
Definition initialize_bme280 : M Vars bool := hw_sensor_init.

(** [pwm.ChangeDutyCycle(duty)] *)
Definition ChangeDutyCycle (duty : Q) : M Vars unit :=
  ok <- hw_servo_write (DutyCycle duty) ;;
  if ok then ret tt else raise OtherException.

(** [set_servo_angle(angle)] (lines 77-87) *)
Definition set_servo_angle (angle : Z) : M Vars unit :=
  v <- load ;;
  if negb (pwm v) then ret tt
  else
    let duty := angle_to_duty_cycle (inject_Z angle) in
    ChangeDutyCycle duty ;;
    sleep 1 ;;
    ChangeDutyCycle 0.

(** [setup_servo()] (lines 45-62): the GPIO calls up to [pwm.start(0)]
    are one hardware outcome; any failure ends in [exit()]. *)
Definition setup_servo : M Vars unit :=
  try_except
    (ok <- hw_servo_init ;;
     if ok then
       store (set_pwm true) ;;
       set_servo_angle SERVO_CLOSED_ANGLE ;;
       sleep 1 ;;
       ChangeDutyCycle 0
     else raise OtherException)
    isinstance_Exception
    (fun _ => emit GpioCleanup ;; raise SystemExit).

(** [open_collector()] *)
Definition open_collector : M Vars unit :=
  set_servo_angle SERVO_OPEN_ANGLE ;;
  store (set_collector_is_open true).

(** [close_collector()] *)
Definition close_collector : M Vars unit :=
  set_servo_angle SERVO_CLOSED_ANGLE ;;
  store (set_collector_is_open false).

(** [try: body finally: cleanup] around a loop that has not ended is
    still looping; otherwise the cleanup runs and the outcome is kept. *)
Definition try_finally (body cleanup : M Vars unit) : M Vars unit :=
  fun v w =>
    match body v w with
    | mkResult StillLooping v1 w1 t1 => mkResult StillLooping v1 w1 t1
    | mkResult o v1 w1 t1 =>
        match cleanup v1 w1 with
        | mkResult _ v2 w2 t2 => mkResult o v2 w2 (t1 ++ t2)
        end
    end.

Section WithConfig.
Variable cfg : Config.

(** Lines 129-137: the hysteresis rule. *)
Definition evaluate (current_altitude : pyfloat) : M Vars unit :=
  v <- load ;;
  if negb (collector_is_open v) && py_gt current_altitude (ALTITUDE_OPEN cfg)
  then open_collector
  else if collector_is_open v && py_lt current_altitude (ALTITUDE_CLOSE cfg)
  then close_collector
  else ret tt.

(** [bme280.altitude] (line 121) *)
Definition read_altitude : M Vars (option pyfloat) :=
  r <- hw_altitude ;;
  match r with
  | Reads a => ret (Some a)
  | ReadsNone => ret None
  | RaisesRuntimeError => raise RuntimeError
  | RaisesException => raise OtherException
  end.

(** Lines 121-137: the body of the inner [try]. *)
Definition try_body : M Vars unit :=
  current_altitude <- read_altitude ;;
  match current_altitude with
  | None => sleep 10 ;; continue
  | Some a => evaluate a
  end.

(** Lines 120-140: the inner [try] statement; its [except Exception]
    clause only prints. *)
Definition try_statement : M Vars unit :=
  try_except try_body isinstance_Exception (fun _ => ret tt).

(** Lines 120-142: one pass through the body of [while True]. *)
Definition cycle : M Vars unit :=
  try_statement ;;
  sleep 30.

(** [main()], with the loop unrolled [cycles] times. *)
Definition main (cycles : nat) : M Vars unit :=
  bme280 <- initialize_bme280 ;;
  if negb bme280 then ret tt
  else
    setup_servo ;;
    try_finally (while_true cycles cycle) (emit GpioCleanup).
End WithConfig.

(** The door commands a trace shows: a duty cycle is a command when it
    is the duty cycle of one of the two door angles. *)
Definition target_of_duty (duty : Q) : option ActuatorState :=
  if Qeq_bool duty (angle_to_duty_cycle (inject_Z SERVO_OPEN_ANGLE)) then Some Open
  else if Qeq_bool duty (angle_to_duty_cycle (inject_Z SERVO_CLOSED_ANGLE))
  then Some Closed
  else None.

Fixpoint commanded (t : list event) : list ActuatorState :=
  match t with
  | [] => []
  | DutyCycle duty _ :: t' => issued (target_of_duty duty) ++ commanded t'
  | _ :: t' => commanded t'
  end.

(** A call of [set_servo_angle] shows in the trace as: the duty cycle
    set, one second of sleep, the duty cycle set to 0.  The command has
    succeeded when all three are there and both writes went through. *)
Inductive phase : Type :=
| Idle
| Driving (duty : Q)
| Holding (duty : Q).

Definition observe (s : bool * phase) (e : event) : bool * phase :=
  match e, snd s with
  | DutyCycle d true, Holding d0 =>
      if Qeq_bool d 0 then
        (match target_of_duty d0 with
         | Some Open => true
         | Some Closed => false
         | None => fst s
         end, Idle)
      else (fst s, Driving d)
  | DutyCycle d true, _ => (fst s, Driving d)
  | Sleep z, Driving d => if (z =? 1)%Z then (fst s, Holding d) else (fst s, Idle)
  | _, _ => (fst s, Idle)
  end.

(** The flag a trace accounts for: each successful command sets it to
    the commanded target, nothing else touches it. *)
Definition replay (flag : bool) (t : list event) : bool :=
  fst (fold_left observe t (flag, Idle)).

End RaspberryPi.



(** ** Scenarios *)

(** A valid reading of a whole number of metres. *)
Definition rd (metres : Z) : read_outcome := Reads (Finite (inject_Z metres)).

(** The band scenario of the specification: three readings between the
    thresholds. *)
Definition band_readings : list read_outcome := [rd 19000; rd 19500; rd 19999].

(** Whether one of the first [n] outcomes of a hardware call is a success. *)
Definition succeeds_within (f : nat -> bool) (n : nat) : bool :=
  existsb f (seq 0 n).

(** Hardware that never fails and a sensor that answers as scripted. *)
Definition healthy (readings : list read_outcome) (rest : read_outcome) : World :=
  mkWorld (script [] true) (script [] true) (script [] true) (script readings rest).

(** The fault-recovery scenario of the specification: the read raises a
    transient error once and returns 18500 from then on. *)
Definition fault_recovery : World := healthy [RaisesRuntimeError] (rd 18500).

(** A loop state past line 131, with the door recorded open and the local
    [collector_servo] of [main_loop] bound to [None], and hardware whose
    first servo write fails and whose first read raises an unclassified
    error. *)
Definition open_door : Arduino.Vars :=
  Arduino.mkVars true true true Arduino.BoundNone.

Definition unclassified_error : World :=
  mkWorld (script [] true) (script [] true) (script [false] true)
    (script [RaisesException] (rd 19000)).

(** Hardware whose first servo write fails. *)
Definition failing_write : World :=
  mkWorld (script [] true) (script [] true) (script [false] true)
    (script [] (rd 21000)).

(** Hardware whose sensor fails to initialise once. *)
Definition late_sensor : World :=
  mkWorld (script [false] true) (script [] true) (script [] true)
    (script [] (rd 19000)).

(** Thresholds the wrong way round: close above open. *)
Definition reversed_config : Config :=
  {| ALTITUDE_OPEN := 18000; ALTITUDE_CLOSE := 20000 |}.

(** ** What traces are checked for *)

(** The events of a cycle that only retries the sensor. *)
Definition is_sensor_retry_event (e : event) : bool :=
  match e with
  | Sleep _ | SensorInit _ => true
  | _ => false
  end.

(** A duty cycle the SG90 is meant to see: the release value 0, or a value
    between 2.5 and 12.5. *)
Definition duty_in_range (e : event) : Prop :=
  match e with
  | DutyCycle d _ => d == 0 \/ (2.5 <= d /\ d <= 12.5)
  | _ => True
  end.

(** The number of altitude reads in a trace. *)
Definition reads_in (t : list event) : nat :=
  length (filter is_altitude_event t).

(** ** gas_detection.py *)
Module GasDetection.

(** A row of [sensor_data.csv]: the header, or a timestamp and the four
    measurements. *)
Inductive row : Type :=
| Header
| Data (timestamp : nat) (co2 : Z) (temperature pressure altitude : Q).

(** What one pass of the loop meets: the clock, the outcome of each sensor
    read ([None]: the read raises) and whether [writerow] goes through. *)
Record sample : Type := mkSample {
  now : nat;
  CO2 : option Z;
  temperature : option Q;
  pressure : option Q;
  altitude : option Q;
  writerow_ok : bool
}.

(** Lines 30-37: the body of the [try], on the rows the file holds.
    [None]: an exception was raised, in which case nothing was written. *)
Definition try_body (s : sample) (file : list row) : option (list row) :=
  match CO2 s with
  | None => None
  | Some co2 =>
      match temperature s with
      | None => None
      | Some temperature =>
          match pressure s with
          | None => None
          | Some pressure =>
              match altitude s with
              | None => None
              | Some altitude =>
                  if writerow_ok s
                  then Some (file ++ [Data (now s) co2 temperature pressure altitude])
                  else None
              end
          end
      end
  end.

(** Lines 29-40: the [try] statement; [except Exception] only prints. *)
Definition try_statement (s : sample) (file : list row) : list row :=
  match try_body s file with
  | Some file' => file'
  | None => file
  end.

(** Lines 28-42: [while True], unrolled [cycles] times; the result is the
    file and the sleeps. *)
Fixpoint polling (cycles : nat) (samples : nat -> sample) (file : list row)
    : list row * list event :=
  match cycles with
  | O => (file, [])
  | S n =>
      let file' := try_statement (samples 0%nat) file in
      let (file'', t) := polling n (later samples) file' in
      (file'', Sleep 60 :: t)
  end.

(** [log_sensor_data()]: the file is opened for appending, the header is
    written when the file is empty ([tell() == 0]), and the loop runs.  A
    failure to write the header is outside the [try] and leaves the
    function. *)
Definition log_sensor_data (cycles : nat) (header_ok : bool)
    (samples : nat -> sample) (file : list row)
    : outcome unit * list row * list event :=
  match file with
  | [] =>
      if header_ok then
        let (file', t) := polling cycles samples [Header] in
        (StillLooping, file', t)
      else (Raised OtherException, [], [])
  | _ :: _ =>
      let (file', t) := polling cycles samples file in
      (StillLooping, file', t)
  end.

(** The rows one pass adds. *)
Definition logged (s : sample) : list row :=
  try_statement s [].

Definition is_header (r : row) : bool :=
  match r with Header => true | Data _ _ _ _ _ => false end.

(** The file a run leaves. *)
Definition file_after (r : outcome unit * list row * list event) : list row :=
  snd (fst r).

End GasDetection.

(** ** Tactics that run the embedded programs *)

(** Unfolds one layer of the control-flow combinators and of the functions
    of both scripts. *)
Ltac py_step :=
  cbv beta iota zeta delta
    [bind ret raise continue load store emit sleep try_except
     hw_sensor_init hw_servo_init hw_servo_write hw_altitude
     out vars hw trace Arduino.initial RaspberryPi.initial
     Arduino.initialize_bme280 Arduino.setup_servo
     Arduino.open_collector_door Arduino.close_collector_door
     Arduino.load_local_collector_servo Arduino.read_altitude
     Arduino.evaluate Arduino.try_body Arduino.handler
     Arduino.reinit_sensor Arduino.reinit_servo Arduino.try_statement
     Arduino.cycle Arduino.startup
     Arduino.set_collector_is_open Arduino.set_bme280_sensor
     Arduino.set_collector_servo Arduino.set_local_collector_servo
     Arduino.collector_is_open Arduino.bme280_sensor
     Arduino.collector_servo Arduino.local_collector_servo
     RaspberryPi.initialize_bme280 RaspberryPi.ChangeDutyCycle
     RaspberryPi.set_servo_angle RaspberryPi.setup_servo
     RaspberryPi.open_collector RaspberryPi.close_collector
     RaspberryPi.try_finally RaspberryPi.evaluate RaspberryPi.read_altitude
     RaspberryPi.try_body RaspberryPi.try_statement RaspberryPi.cycle
     RaspberryPi.set_collector_is_open RaspberryPi.set_pwm
     RaspberryPi.collector_is_open RaspberryPi.pwm
     isinstance_Exception isinstance_RuntimeError
     sensor_init servo_init servo_write altitude later negb andb
     script nth];
  cbn [app].

(** Splits on the first condition or scrutinee that blocks the run. *)
Ltac py_case :=
  match goal with
  | |- context [if ?b then _ else _] =>
      lazymatch b with
      | context [if _ then _ else _] => fail
      | context [match _ with _ => _ end] => fail
      | _ => destruct b eqn:?
      end
  | |- context [match ?x with Reads _ => _ | _ => _ end] => destruct x eqn:?
  | |- context [match ?x with Arduino.Unbound => _ | _ => _ end] => destruct x eqn:?
  end.

(** Decides a threshold comparison on a concrete reading. *)
Ltac py_ground :=
  match goal with
  | |- context [py_gt ?x ?k] =>
      let b := eval vm_compute in (py_gt x k) in
      lazymatch b with
      | true => change (py_gt x k) with true
      | false => change (py_gt x k) with false
      end
  | |- context [py_lt ?x ?k] =>
      let b := eval vm_compute in (py_lt x k) in
      lazymatch b with
      | true => change (py_lt x k) with true
      | false => change (py_lt x k) with false
      end
  end.

Ltac py_run := py_step; repeat (first [py_ground | py_case]; py_step).

(** Checks a concrete trace for [duty_in_range], given the bounds of
    [angle_to_duty_cycle]. *)
Ltac duty_ok bounds :=
  repeat first [apply Forall_cons | apply Forall_nil];
  cbn [duty_in_range]; try exact I;
  first [left; reflexivity | right; apply bounds].

(** * Properties *)

(** ** Arithmetic of the servo duty cycle *)

Lemma Qlt_bool_true (x y : Q) : RaspberryPi.Qlt_bool x y = true <-> x < y.
Proof.
  unfold RaspberryPi.Qlt_bool. rewrite negb_true_iff.
  split; intro H.
  - apply Qnot_le_lt. intro L. apply Qle_bool_iff in L. congruence.
  - destruct (Qle_bool y x) eqn:E; [|reflexivity].
    apply Qle_bool_iff in E. exfalso. apply (Qlt_not_le x y); assumption.
Qed.

Lemma Qlt_bool_false (x y : Q) : RaspberryPi.Qlt_bool x y = false <-> y <= x.
Proof.
  unfold RaspberryPi.Qlt_bool. rewrite negb_false_iff. apply Qle_bool_iff.
Qed.

(** C10: [angle_to_duty_cycle] clamps the angle into the interval from 0 to
    180 and returns 2.5 + (clamped / 180) * 10; the result lies between 2.5
    and 12.5, is 2.5 for every angle below 0 and 12.5 for every angle above
    180. *)
Theorem angle_to_duty_cycle_clamps (angle : Q) :
  RaspberryPi.angle_to_duty_cycle angle
    == 2.5 + (RaspberryPi.clamped angle / 180) * 10
  /\ 2.5 <= RaspberryPi.angle_to_duty_cycle angle
  /\ RaspberryPi.angle_to_duty_cycle angle <= 12.5
  /\ (angle < 0 -> RaspberryPi.angle_to_duty_cycle angle == 2.5)
  /\ (180 < angle -> RaspberryPi.angle_to_duty_cycle angle == 12.5).
Proof.
  assert (scale : forall x : Q, x / 180 * 10 == x * (1 # 18)) by (intro x; field).
  unfold RaspberryPi.angle_to_duty_cycle, RaspberryPi.clamped.
  destruct (RaspberryPi.Qlt_bool angle 0) eqn:Lo.
  - apply Qlt_bool_true in Lo.
    replace (RaspberryPi.Qlt_bool 180 0) with false by reflexivity.
    assert (Hc : Qmax 0 (Qmin angle 180) == 0).
    { apply Q.max_l. apply Qle_trans with angle; [apply Q.le_min_l | lra]. }
    rewrite Hc, !scale.
    repeat split; try (intros; lra); try reflexivity.
  - apply Qlt_bool_false in Lo.
    destruct (RaspberryPi.Qlt_bool 180 angle) eqn:Hi.
    + apply Qlt_bool_true in Hi.
      assert (Hc : Qmax 0 (Qmin angle 180) == 180).
      { rewrite Q.min_r by lra. apply Q.max_r. lra. }
      rewrite Hc, !scale.
      repeat split; try (intros; lra); try reflexivity.
    + apply Qlt_bool_false in Hi.
      assert (Hc : Qmax 0 (Qmin angle 180) == angle).
      { rewrite Q.min_l by lra. apply Q.max_r. lra. }
      rewrite Hc, !scale.
      repeat split; try (intros; lra); try reflexivity.
Qed.

(** The clamp at -5 and at 200 degrees. *)
Lemma angle_to_duty_cycle_clamps_witness :
  RaspberryPi.angle_to_duty_cycle (-5) == 2.5
  /\ RaspberryPi.angle_to_duty_cycle 200 == 12.5.
Proof.
  split.
  - destruct (angle_to_duty_cycle_clamps (-5)) as (_ & _ & _ & below & _).
    apply below. reflexivity.
  - destruct (angle_to_duty_cycle_clamps 200) as (_ & _ & _ & _ & above).
    apply above. reflexivity.
Defined.

(** The two door angles give these duty cycles. *)
Example duty_of_open_angle :
  RaspberryPi.angle_to_duty_cycle (inject_Z SERVO_OPEN_ANGLE) == 7.5.
Proof. reflexivity. Qed.

Example duty_of_closed_angle :
  RaspberryPi.angle_to_duty_cycle (inject_Z SERVO_CLOSED_ANGLE) == 2.5.
Proof. reflexivity. Qed.

(** ** Running the embedded programs *)

Lemma while_true_S (V : Type) (n : nat) (body : M V unit) (v : V) (w : World) :
  while_true (S n) body v w =
    match body v w with
    | mkResult (Normal _) v1 w1 t1
    | mkResult Continued v1 w1 t1 =>
        match while_true n body v1 w1 with
        | mkResult o v2 w2 t2 => mkResult o v2 w2 (t1 ++ t2)
        end
    | mkResult (Raised e) v1 w1 t1 => mkResult (Raised e) v1 w1 t1
    | mkResult StillLooping v1 w1 t1 => mkResult StillLooping v1 w1 t1
    end.
Proof. reflexivity. Qed.

(** The transition scenarios of the specification, on
    [meteorite_collector.py] with hardware that never fails: from Closed the
    readings 15000, 21000 give one Open command, after the second reading;
    with the door then open, 19000, 17000 give one Close command, after the
    second of them. *)
Example rpi_transition_scenario :
  trace (while_true 2 (RaspberryPi.cycle source_config)
           (RaspberryPi.mkVars false true)
           (healthy [rd 15000; rd 21000] ReadsNone))
  = [AltitudeRead (rd 15000); Sleep 30;
     AltitudeRead (rd 21000);
     DutyCycle (RaspberryPi.angle_to_duty_cycle (inject_Z SERVO_OPEN_ANGLE)) true;
     Sleep 1; DutyCycle 0 true; Sleep 30].
Proof. reflexivity. Qed.

Example rpi_reverse_transition_scenario :
  RaspberryPi.commanded
    (trace (while_true 2 (RaspberryPi.cycle source_config)
              (RaspberryPi.mkVars true true)
              (healthy [rd 19000; rd 17000] ReadsNone)))
  = [Closed]
  /\ RaspberryPi.collector_is_open
       (vars (while_true 2 (RaspberryPi.cycle source_config)
                (RaspberryPi.mkVars true true)
                (healthy [rd 19000; rd 17000] ReadsNone)))
     = false.
Proof. split; reflexivity. Qed.

(** [open_collector] called before [setup_servo] (with [pwm] still [None])
    would set the flag without any command; [main] never does so, since it
    reaches the loop only after [setup_servo] has set [pwm]. *)
Example rpi_open_collector_without_pwm w :
  RaspberryPi.open_collector (RaspberryPi.mkVars false false) w
  = mkResult (Normal tt) (RaspberryPi.mkVars true false) w [].
Proof. reflexivity. Qed.

(** ** The flag and the commands that set it *)

Section ArduinoFlag.
Import Arduino.
Variable cfg : Config.

Lemma arduino_replay_app (flag : bool) (t1 t2 : list event) :
  replay flag (t1 ++ t2) = replay (replay flag t1) t2.
Proof. unfold replay. apply fold_left_app. Qed.

Lemma arduino_startup_accounts (v : Vars) (w : World) :
  collector_is_open (vars (startup v w))
  = replay (collector_is_open v) (trace (startup v w)).
Proof.
  destruct v as [flag sensor servo loc], w as [si sv sw al].
  py_run; reflexivity.
Qed.

Lemma arduino_cycle_accounts (v : Vars) (w : World) :
  collector_is_open (vars (cycle cfg v w))
  = replay (collector_is_open v) (trace (cycle cfg v w)).
Proof.
  destruct v as [flag sensor servo loc], w as [si sv sw al].
  py_run; reflexivity.
Qed.

Lemma arduino_loop_accounts (n : nat) :
  forall (v : Vars) (w : World),
    collector_is_open (vars (while_true n (cycle cfg) v w))
    = replay (collector_is_open v) (trace (while_true n (cycle cfg) v w)).
Proof.
  induction n as [|n IH]; intros v w.
  - reflexivity.
  - rewrite while_true_S.
    pose proof (arduino_cycle_accounts v w) as Hc.
    destruct (cycle cfg v w) as [o v1 w1 t1]; simpl in Hc.
    destruct o as [[]|e| |]; simpl; try assumption.
    + specialize (IH v1 w1).
      destruct (while_true n (cycle cfg) v1 w1) as [o2 v2 w2 t2].
      simpl in *. rewrite arduino_replay_app, <- Hc. exact IH.
    + specialize (IH v1 w1).
      destruct (while_true n (cycle cfg) v1 w1) as [o2 v2 w2 t2].
      simpl in *. rewrite arduino_replay_app, <- Hc. exact IH.
Qed.

Lemma arduino_main_loop_accounts (n : nat) (w : World) :
  collector_is_open (vars (main_loop cfg n initial w))
  = replay false (trace (main_loop cfg n initial w)).
Proof.
  unfold main_loop, bind.
  pose proof (arduino_startup_accounts initial w) as Hs.
  destruct (startup initial w) as [o v1 w1 t1]; simpl in Hs.
  destruct o as [[]|e| |]; simpl; try assumption.
  pose proof (arduino_loop_accounts n v1 w1) as Hl.
  destruct (while_true n (cycle cfg) v1 w1) as [o2 v2 w2 t2].
  simpl in *. rewrite arduino_replay_app, <- Hs. exact Hl.
Qed.
End ArduinoFlag.

Section RaspberryPiFlag.
Import RaspberryPi.
Variable cfg : Config.

(** After [setup_servo], [pwm] is set and stays set; the body of the loop
    swallows every exception, so the loop never ends by one. *)
Lemma rpi_cycle_goes_on (v : Vars) (w : World) :
  (out (cycle cfg v w) = Normal tt \/ out (cycle cfg v w) = Continued)
  /\ pwm (vars (cycle cfg v w)) = pwm v.
Proof.
  destruct v as [flag p], w as [si sv sw al].
  py_run; auto.
Qed.

Lemma rpi_loop_still_looping (n : nat) :
  forall (v : Vars) (w : World),
    out (while_true n (cycle cfg) v w) = StillLooping
    /\ pwm (vars (while_true n (cycle cfg) v w)) = pwm v.
Proof.
  induction n as [|n IH]; intros v w.
  - split; reflexivity.
  - rewrite while_true_S.
    destruct (rpi_cycle_goes_on v w) as [Ho Hp].
    destruct (cycle cfg v w) as [o v1 w1 t1]; simpl in Ho, Hp.
    destruct (IH v1 w1) as [Ho2 Hp2].
    destruct (while_true n (cycle cfg) v1 w1) as [o2 v2 w2 t2].
    simpl in Ho2, Hp2.
    destruct Ho as [-> | ->]; simpl; split; congruence.
Qed.

(** One cycle, watched by the monitor from any phase: it ends in [Idle]
    with the flag the cycle leaves. *)
Lemma rpi_cycle_accounts (v : Vars) (w : World) (ph : phase) :
  pwm v = true ->
  fold_left observe (trace (cycle cfg v w)) (collector_is_open v, ph)
  = (collector_is_open (vars (cycle cfg v w)), Idle).
Proof.
  destruct v as [flag p], w as [si sv sw al]. simpl. intros ->.
  py_run; destruct ph; reflexivity.
Qed.

Lemma rpi_loop_accounts (n : nat) :
  forall (v : Vars) (w : World) (ph : phase),
    pwm v = true ->
    fst (fold_left observe (trace (while_true n (cycle cfg) v w))
           (collector_is_open v, ph))
    = collector_is_open (vars (while_true n (cycle cfg) v w)).
Proof.
  induction n as [|n IH]; intros v w ph Hp.
  - reflexivity.
  - rewrite while_true_S.
    pose proof (@rpi_cycle_accounts v w ph Hp) as Hc.
    destruct (rpi_cycle_goes_on v w) as [Ho Hp1].
    destruct (cycle cfg v w) as [o v1 w1 t1]; simpl in Hc, Ho, Hp1.
    assert (Hp1' : pwm v1 = true) by congruence.
    specialize (IH v1 w1 Idle Hp1').
    destruct (while_true n (cycle cfg) v1 w1) as [o2 v2 w2 t2].
    simpl in IH.
    destruct Ho as [-> | ->]; simpl; rewrite fold_left_app, Hc; exact IH.
Qed.

Lemma rpi_main_accounts (n : nat) (w : World) :
  collector_is_open (vars (main cfg n initial w))
  = replay false (trace (main cfg n initial w)).
Proof.
  unfold replay, main.
  pose proof (rpi_loop_still_looping n) as Hs.
  pose proof (rpi_loop_accounts n) as Ha.
  set (loop := while_true n (cycle cfg)) in *. clearbody loop.
  destruct w as [si sv sw al].
  py_run; try reflexivity.
  match goal with
  | |- context [loop ?v ?w] =>
      specialize (Hs v w); specialize (Ha v w (Driving 0) eq_refl);
      destruct (loop v w) as [o2 v2 w2 t2]
  end.
  simpl in Hs, Ha. destruct Hs as [-> _]. simpl. symmetry. exact Ha.
Qed.
End RaspberryPiFlag.

(** C2: the flag [collector_is_open] changes only through successful door
    commands and then takes exactly the commanded target.  For every run of
    either program, of any length and against any hardware, the flag at the
    end is the flag that the successful commands of the trace account for. *)
Theorem actuator_state_follows_commands :
  (forall cfg n v w,
      Arduino.collector_is_open (vars (while_true n (Arduino.cycle cfg) v w))
      = Arduino.replay (Arduino.collector_is_open v)
          (trace (while_true n (Arduino.cycle cfg) v w)))
  /\ (forall cfg n w,
      Arduino.collector_is_open (vars (Arduino.main_loop cfg n Arduino.initial w))
      = Arduino.replay false (trace (Arduino.main_loop cfg n Arduino.initial w)))
  /\ (forall cfg n w,
      RaspberryPi.collector_is_open
        (vars (RaspberryPi.main cfg n RaspberryPi.initial w))
      = RaspberryPi.replay false
          (trace (RaspberryPi.main cfg n RaspberryPi.initial w))).
Proof.
  split; [|split]; intros.
  - apply arduino_loop_accounts.
  - apply arduino_main_loop_accounts.
  - apply rpi_main_accounts.
Qed.

(** ** The hysteresis rule *)

Lemma arduino_answer_to_reading cfg v w :
  Arduino.commanded (trace (Arduino.try_statement cfg v w))
  = match altitude w 0%nat with
    | Reads a =>
        if Arduino.bme280_sensor v && Arduino.collector_servo v
        then issued (transition_rule cfg (state_of (Arduino.collector_is_open v)) a)
        else []
    | _ => []
    end.
Proof.
  destruct v as [flag sensor servo loc], w as [si sv sw al].
  unfold transition_rule, state_of, issued.
  py_run; reflexivity.
Qed.

Lemma rpi_answer_to_reading cfg v w :
  RaspberryPi.commanded (trace (RaspberryPi.cycle cfg v w))
  = match altitude w 0%nat with
    | Reads a =>
        if RaspberryPi.pwm v
        then issued (transition_rule cfg (state_of (RaspberryPi.collector_is_open v)) a)
        else []
    | _ => []
    end.
Proof.
  destruct v as [flag p], w as [si sv sw al].
  unfold transition_rule, state_of, issued.
  py_run; reflexivity.
Qed.

Lemma no_command_at_threshold cfg :
  transition_rule cfg Closed (Finite (ALTITUDE_OPEN cfg)) = None
  /\ transition_rule cfg Open (Finite (ALTITUDE_CLOSE cfg)) = None.
Proof.
  assert (refl : forall x, Qle_bool x x = true)
    by (intro x; apply Qle_bool_iff, Qle_refl).
  unfold transition_rule, py_gt, py_lt. rewrite !refl. split; reflexivity.
Qed.

Lemma no_command_in_band s q :
  18000 <= q -> q <= 20000 ->
  transition_rule source_config s (Finite q) = None.
Proof.
  intros lo hi.
  apply Qle_bool_iff in lo. apply Qle_bool_iff in hi.
  destruct s; unfold transition_rule, py_gt, py_lt; simpl ALTITUDE_OPEN;
    simpl ALTITUDE_CLOSE; rewrite ?lo, ?hi; reflexivity.
Qed.

Lemma arduino_band_scenario si sv sw rest sensor servo loc :
  triggered
    (trace (while_true 3 (Arduino.cycle source_config)
              (Arduino.mkVars false sensor servo loc)
              (mkWorld si sv sw (script band_readings rest)))) = [].
Proof.
  cbv [while_true band_readings rd].
  py_run; reflexivity.
Qed.

Lemma rpi_band_scenario si sv sw rest p :
  filter is_actuator_event
    (trace (while_true 3 (RaspberryPi.cycle source_config)
              (RaspberryPi.mkVars false p)
              (mkWorld si sv sw (script band_readings rest)))) = [].
Proof.
  cbv [while_true band_readings rd].
  py_run; reflexivity.
Qed.

(** C1: the hysteresis transition rule.  In both programs the door command
    issued in answer to an altitude reading is exactly the one the rule
    names: Open when the state is Closed and the reading is above the open
    threshold, Close when the state is Open and the reading is below the
    close threshold, none otherwise (none either when the device handle is
    missing or no reading was obtained).  A reading equal to a threshold,
    and with thresholds 20000 and 18000 every reading between them, gives no
    command; the readings 19000, 19500, 19999 starting Closed trigger no
    command in three cycles of either loop. *)
Theorem hysteresis_transition_rule :
  (forall cfg v w,
      Arduino.commanded (trace (Arduino.try_statement cfg v w))
      = match altitude w 0%nat with
        | Reads a =>
            if Arduino.bme280_sensor v && Arduino.collector_servo v
            then issued (transition_rule cfg
                           (state_of (Arduino.collector_is_open v)) a)
            else []
        | _ => []
        end)
  /\ (forall cfg v w,
      RaspberryPi.commanded (trace (RaspberryPi.cycle cfg v w))
      = match altitude w 0%nat with
        | Reads a =>
            if RaspberryPi.pwm v
            then issued (transition_rule cfg
                           (state_of (RaspberryPi.collector_is_open v)) a)
            else []
        | _ => []
        end)
  /\ (forall cfg,
      transition_rule cfg Closed (Finite (ALTITUDE_OPEN cfg)) = None
      /\ transition_rule cfg Open (Finite (ALTITUDE_CLOSE cfg)) = None)
  /\ (forall s q,
      18000 <= q -> q <= 20000 ->
      transition_rule source_config s (Finite q) = None)
  /\ (forall si sv sw rest sensor servo loc,
      triggered
        (trace (while_true 3 (Arduino.cycle source_config)
                  (Arduino.mkVars false sensor servo loc)
                  (mkWorld si sv sw (script band_readings rest)))) = [])
  /\ (forall si sv sw rest p,
      filter is_actuator_event
        (trace (while_true 3 (RaspberryPi.cycle source_config)
                  (RaspberryPi.mkVars false p)
                  (mkWorld si sv sw (script band_readings rest)))) = []).
Proof.
  refine (conj _ (conj _ (conj _ (conj _ (conj _ _))))).
  - apply arduino_answer_to_reading.
  - apply rpi_answer_to_reading.
  - apply no_command_at_threshold.
  - intros s q lo hi. apply no_command_in_band; assumption.
  - apply arduino_band_scenario.
  - apply rpi_band_scenario.
Qed.

(** 19500 m with the door closed, and 18000 m with the door open. *)
Lemma hysteresis_transition_rule_witness :
  transition_rule source_config Closed (Finite 19500) = None
  /\ transition_rule source_config Open (Finite 18000) = None.
Proof.
  destruct hysteresis_transition_rule as (_ & _ & _ & band & _).
  split; apply band; discriminate.
Defined.

(** ** The loop of [collector_arduino.py] ends on its first pass *)

Lemma succeeds_within_S (f : nat -> bool) (n : nat) :
  succeeds_within f (S n) = f 0%nat || succeeds_within (later f) n.
Proof.
  unfold succeeds_within. simpl. f_equal.
  rewrite <- seq_shift.
  induction (seq 0 n) as [|k l IH]; simpl; [reflexivity|].
  rewrite IH. reflexivity.
Qed.

Section ArduinoCrash.
Import Arduino.
Variable cfg : Config.

(** With the local [collector_servo] unbound, a cycle either fails to
    re-initialise the sensor and starts over, or reaches line 131 and
    raises. *)
Lemma arduino_cycle_unbound (v : Vars) (w : World) :
  local_collector_servo v = Unbound ->
  cycle cfg v w =
    if bme280_sensor v then mkResult (Raised UnboundLocalError) v w []
    else if sensor_init w 0%nat then
      mkResult (Raised UnboundLocalError) (set_bme280_sensor true v)
        (mkWorld (later (sensor_init w)) (servo_init w) (servo_write w) (altitude w))
        [Sleep 5; SensorInit true]
    else
      mkResult Continued (set_bme280_sensor false v)
        (mkWorld (later (sensor_init w)) (servo_init w) (servo_write w) (altitude w))
        [Sleep 5; SensorInit false; Sleep 25].
Proof.
  destruct v as [flag sensor servo loc], w as [si sv sw al]. simpl.
  intros ->. py_run; reflexivity.
Qed.

Lemma arduino_loop_unbound (n : nat) :
  forall (v : Vars) (w : World),
    local_collector_servo v = Unbound ->
    out (while_true n (cycle cfg) v w) =
      match n with
      | O => StillLooping
      | S _ =>
          if bme280_sensor v || succeeds_within (sensor_init w) n
          then Raised UnboundLocalError
          else StillLooping
      end.
Proof.
  induction n as [|n IH]; intros v w Hloc; [reflexivity|].
  rewrite while_true_S, (arduino_cycle_unbound v w Hloc).
  destruct (bme280_sensor v) eqn:Hs; [reflexivity|].
  rewrite succeeds_within_S. simpl orb.
  destruct (sensor_init w 0%nat) eqn:Hi; [reflexivity|].
  specialize (IH (set_bme280_sensor false v)
    (mkWorld (later (sensor_init w)) (servo_init w) (servo_write w) (altitude w))).
  destruct (while_true n (cycle cfg) _ _) as [o2 v2 w2 t2].
  simpl in *. rewrite IH by (destruct v; assumption).
  destruct n as [|n]; [reflexivity|].
  destruct v; reflexivity.
Qed.

Lemma arduino_startup_leaves_unbound (w : World) :
  out (startup initial w) = Normal tt
  /\ local_collector_servo (vars (startup initial w)) = Unbound
  /\ bme280_sensor (vars (startup initial w)) = sensor_init w 0%nat
  /\ sensor_init (hw (startup initial w)) = later (sensor_init w).
Proof.
  destruct w as [si sv sw al]. py_run; repeat split; auto.
Qed.

Lemma arduino_main_loop_outcome (n : nat) (w : World) :
  out (main_loop cfg (S n) initial w) =
    if succeeds_within (sensor_init w) (S (S n))
    then Raised UnboundLocalError
    else StillLooping.
Proof.
  unfold main_loop, bind.
  destruct (arduino_startup_leaves_unbound w) as (Ho & Hl & Hs & Hw).
  destruct (startup initial w) as [o v1 w1 t1]. simpl in Ho, Hl, Hs, Hw.
  subst o.
  pose proof (arduino_loop_unbound (S n) v1 w1 Hl) as Hloop.
  destruct (while_true (S n) (cycle cfg) v1 w1) as [o2 v2 w2 t2].
  simpl in *. rewrite Hloop, Hs, Hw.
  rewrite (succeeds_within_S (sensor_init w) (S n)). reflexivity.
Qed.
End ArduinoCrash.

Lemma arduino_healthy_run cfg n readings rest :
  out (Arduino.main_loop cfg (S n) Arduino.initial (healthy readings rest))
    = Raised UnboundLocalError
  /\ trace (Arduino.main_loop cfg (S n) Arduino.initial (healthy readings rest))
    = [SensorInit true; ServoInit true; ServoAngle SERVO_CLOSED_ANGLE true]
  /\ Arduino.bme280_sensor
       (vars (Arduino.main_loop cfg (S n) Arduino.initial (healthy readings rest)))
    = true.
Proof.
  unfold Arduino.main_loop, healthy.
  py_run. rewrite while_true_S. py_run. repeat split.
Qed.

(** C3: the claim that no error ends the control loop fails for
    [collector_arduino.py].  [main_loop] ends by an uncaught
    [UnboundLocalError] in the first cycle in which the sensor is
    initialised: as soon as one of the sensor initialisations so far has
    succeeded, however many cycles are allowed; with hardware that never
    fails it ends in the first cycle, before any altitude is read.  The loop
    of [meteorite_collector.py] is never left by an exception. *)
Theorem arduino_main_loop_terminates :
  (forall cfg n w,
      out (Arduino.main_loop cfg (S n) Arduino.initial w) =
        if succeeds_within (sensor_init w) (S (S n))
        then Raised UnboundLocalError
        else StillLooping)
  /\ (forall cfg n readings rest,
      out (Arduino.main_loop cfg (S n) Arduino.initial (healthy readings rest))
        = Raised UnboundLocalError
      /\ trace (Arduino.main_loop cfg (S n) Arduino.initial (healthy readings rest))
        = [SensorInit true; ServoInit true; ServoAngle SERVO_CLOSED_ANGLE true])
  /\ (forall cfg n v w,
      out (while_true n (RaspberryPi.cycle cfg) v w) = StillLooping).
Proof.
  refine (conj _ (conj _ _)).
  - intros. apply arduino_main_loop_outcome.
  - intros cfg n readings rest.
    destruct (arduino_healthy_run cfg n readings rest) as (Ho & Ht & _).
    split; assumption.
  - intros. apply rpi_loop_still_looping.
Qed.

(** ** Transient and indeterminate readings *)

(** C8: the fault-recovery scenario (the read raises a transient error
    once, then returns 18500) on [collector_arduino.py].  The controller
    never gets to the read: [main_loop] ends by [UnboundLocalError] in its
    first cycle, without an altitude read, a fault mark or a
    re-initialisation.  Past line 131 the handler of [RuntimeError] does what
    the claim says: it sleeps 5 s, clears the sensor handle and goes on to
    the 15 s sleep. *)
Theorem fault_recovery_ends_before_first_read :
  (forall cfg n,
      out (Arduino.main_loop cfg (S n) Arduino.initial fault_recovery)
        = Raised UnboundLocalError
      /\ trace (Arduino.main_loop cfg (S n) Arduino.initial fault_recovery)
        = [SensorInit true; ServoInit true; ServoAngle SERVO_CLOSED_ANGLE true]
      /\ Arduino.bme280_sensor
           (vars (Arduino.main_loop cfg (S n) Arduino.initial fault_recovery))
        = true)
  /\ (forall cfg flag servo loc si sv sw rest,
      (Arduino.try_statement cfg ;; sleep 15)
        (Arduino.mkVars flag true servo loc)
        (mkWorld si sv sw (script [RaisesRuntimeError] rest))
      = mkResult (Normal tt)
          (Arduino.mkVars flag false servo loc)
          (mkWorld si sv sw (later (script [RaisesRuntimeError] rest)))
          [AltitudeRead RaisesRuntimeError; Sleep 5; Sleep 15]).
Proof.
  split.
  - intros cfg n. apply arduino_healthy_run.
  - intros. py_run. reflexivity.
Qed.

(** C7: an indeterminate reading ([None]).  Both programs leave every
    variable as it was, issue no command and skip the rest of the cycle, but
    the delay they sleep is 10 s: shorter, not longer, than the poll
    interval (30 s in [meteorite_collector.py], 15 s in
    [collector_arduino.py]) that a cycle with a valid reading and no command
    sleeps. *)
Theorem indeterminate_reading_sleeps_less :
  (forall cfg v si sv sw rest,
      RaspberryPi.cycle cfg v (mkWorld si sv sw (script [ReadsNone] rest))
      = mkResult Continued v
          (mkWorld si sv sw (later (script [ReadsNone] rest)))
          [AltitudeRead ReadsNone; Sleep 10])
  /\ (forall cfg v si sv sw rest,
      trace (RaspberryPi.cycle cfg v (mkWorld si sv sw (script [Reads NaN] rest)))
      = [AltitudeRead (Reads NaN); Sleep 30])
  /\ (forall cfg flag servo loc si sv sw rest,
      (Arduino.try_statement cfg ;; sleep 15)
        (Arduino.mkVars flag true servo loc)
        (mkWorld si sv sw (script [ReadsNone] rest))
      = mkResult Continued
          (Arduino.mkVars flag true servo loc)
          (mkWorld si sv sw (later (script [ReadsNone] rest)))
          [AltitudeRead ReadsNone; Sleep 10])
  /\ (forall cfg flag servo loc si sv sw rest,
      trace ((Arduino.try_statement cfg ;; sleep 15)
               (Arduino.mkVars flag true servo loc)
               (mkWorld si sv sw (script [Reads NaN] rest)))
      = [AltitudeRead (Reads NaN); Sleep 15])
  /\ (slept [AltitudeRead ReadsNone; Sleep 10]
       < slept [AltitudeRead (Reads NaN); Sleep 15])%Z.
Proof.
  refine (conj _ (conj _ (conj _ (conj _ _)))).
  - intros cfg [flag p] si sv sw rest. py_run. reflexivity.
  - intros cfg [flag p] si sv sw rest. py_run; reflexivity.
  - intros. py_run. reflexivity.
  - intros. py_run; reflexivity.
  - reflexivity.
Qed.

(** ** Unclassified errors *)

Lemma arduino_healthy_run_handles cfg n readings rest :
  Arduino.collector_servo
    (vars (Arduino.main_loop cfg (S n) Arduino.initial (healthy readings rest)))
  = true
  /\ Arduino.collector_is_open
       (vars (Arduino.main_loop cfg (S n) Arduino.initial (healthy readings rest)))
     = false.
Proof.
  unfold Arduino.main_loop, healthy.
  py_run. rewrite while_true_S. py_run. split; reflexivity.
Qed.

(** C4: an unclassified error of the altitude read on
    [collector_arduino.py].  With hardware that initialises and a first read
    that would raise such an error, the controller never gets to the read:
    [main_loop] ends by [UnboundLocalError] at line 131 in its first cycle,
    so the loop is left, no handler runs, and neither the sensor nor the
    servo handle is cleared.  Past line 131 the handler of [Exception]
    shows what is meant: it clears the sensor handle, sleeps 10 s, goes on
    to the 15 s sleep and leaves [collector_is_open] alone; but its
    [collector_servo = None] binds the local name of [main_loop], and the
    module-level servo handle stays as it was. *)
Theorem unclassified_error_ends_before_first_read :
  (forall cfg n rest,
      out (Arduino.main_loop cfg (S n) Arduino.initial
             (healthy [RaisesException] rest))
        = Raised UnboundLocalError
      /\ trace (Arduino.main_loop cfg (S n) Arduino.initial
                  (healthy [RaisesException] rest))
        = [SensorInit true; ServoInit true; ServoAngle SERVO_CLOSED_ANGLE true]
      /\ Arduino.bme280_sensor
           (vars (Arduino.main_loop cfg (S n) Arduino.initial
                    (healthy [RaisesException] rest)))
        = true
      /\ Arduino.collector_servo
           (vars (Arduino.main_loop cfg (S n) Arduino.initial
                    (healthy [RaisesException] rest)))
        = true)
  /\ (forall cfg flag servo loc si sv sw rest,
      (Arduino.try_statement cfg ;; sleep 15)
        (Arduino.mkVars flag true servo loc)
        (mkWorld si sv sw (script [RaisesException] rest))
      = mkResult (Normal tt)
          (Arduino.mkVars flag false servo Arduino.BoundNone)
          (mkWorld si sv sw (later (script [RaisesException] rest)))
          [AltitudeRead RaisesException; Sleep 10; Sleep 15]).
Proof.
  split.
  - intros cfg n rest.
    destruct (arduino_healthy_run cfg n [RaisesException] rest) as (Ho & Ht & Hs).
    destruct (arduino_healthy_run_handles cfg n [RaisesException] rest) as (Hc & _).
    repeat split; assumption.
  - intros. py_run. reflexivity.
Qed.

(** ** Failed commands *)

(** C5, as stated, fails: a door command is issued and fails, and the
    servo handle is as ready as before.  At the start of
    [collector_arduino.py] the Close command fails and [collector_servo]
    stays set; in a cycle of [meteorite_collector.py] the Open command fails
    and [pwm] stays set. *)
Lemma command_failure_leaves_health_ready :
  (let r := Arduino.startup Arduino.initial failing_write in
   trace r = [SensorInit true; ServoInit true; ServoAngle SERVO_CLOSED_ANGLE false]
   /\ Arduino.collector_servo (vars r) = true
   /\ Arduino.local_collector_servo (vars r) = Arduino.Unbound)
  /\ (let r := RaspberryPi.cycle source_config (RaspberryPi.mkVars false true)
                 failing_write in
      RaspberryPi.commanded (trace r) = [Open]
      /\ filter is_actuator_event (trace r)
         = [DutyCycle (RaspberryPi.angle_to_duty_cycle (inject_Z SERVO_OPEN_ANGLE)) false]
      /\ vars r = RaspberryPi.mkVars false true).
Proof.
  cbv [failing_write rd]. split; py_run; repeat split.
Qed.

(** C5, amended: whenever an issued door command fails, [collector_is_open]
    and every device handle are left as they were; the failure is only
    reported.  In [collector_arduino.py] the door functions end normally
    with the variables unchanged; in [meteorite_collector.py] the command
    raises, and a cycle in which a write of the command fails ends normally
    with the variables unchanged. *)
Theorem command_failure_changes_nothing :
  (forall v w,
      Arduino.collector_servo v = true ->
      servo_write w 0%nat = false ->
      out (Arduino.open_collector_door v w) = Normal tt
      /\ vars (Arduino.open_collector_door v w) = v
      /\ trace (Arduino.open_collector_door v w) = [ServoAngle SERVO_OPEN_ANGLE false]
      /\ out (Arduino.close_collector_door v w) = Normal tt
      /\ vars (Arduino.close_collector_door v w) = v
      /\ trace (Arduino.close_collector_door v w)
         = [ServoAngle SERVO_CLOSED_ANGLE false])
  /\ (forall v w,
      RaspberryPi.pwm v = true ->
      servo_write w 0%nat && servo_write w 1%nat = false ->
      out (RaspberryPi.open_collector v w) = Raised OtherException
      /\ vars (RaspberryPi.open_collector v w) = v
      /\ out (RaspberryPi.close_collector v w) = Raised OtherException
      /\ vars (RaspberryPi.close_collector v w) = v)
  /\ (forall cfg v w,
      RaspberryPi.pwm v = true ->
      servo_write w 0%nat && servo_write w 1%nat = false ->
      vars (RaspberryPi.cycle cfg v w) = v
      /\ (out (RaspberryPi.cycle cfg v w) = Normal tt
          \/ out (RaspberryPi.cycle cfg v w) = Continued)).
Proof.
  refine (conj _ (conj _ _)).
  - intros [flag sensor servo loc] [si sv sw al]. simpl. intros -> Hw.
    py_step. rewrite Hw. py_step. repeat split.
  - intros [flag p] [si sv sw al]. simpl. intros -> Hw.
    py_step. destruct (sw 0%nat); py_step.
    + simpl in Hw. rewrite Hw. py_step. repeat split.
    + repeat split.
  - intros cfg [flag p] [si sv sw al]. simpl. intros -> Hw.
    py_run; simpl in Hw; try discriminate; auto.
Qed.

(** A Close command that fails while the door is open. *)
Lemma command_failure_changes_nothing_witness :
  vars (Arduino.close_collector_door (Arduino.mkVars true true true Arduino.Unbound)
          failing_write)
  = Arduino.mkVars true true true Arduino.Unbound.
Proof.
  destruct command_failure_changes_nothing as (door & _).
  apply (door (Arduino.mkVars true true true Arduino.Unbound) failing_write
           eq_refl eq_refl).
Defined.

(** ** Re-initialisation *)

(** C6, as stated, fails: the sensor failed to initialise at startup, the
    re-initialisation in the first cycle succeeds, and 5 s have been slept
    before it all the same. *)
Lemma successful_reinit_is_delayed :
  let r0 := Arduino.startup Arduino.initial late_sensor in
  let r1 := Arduino.reinit_sensor (vars r0) (hw r0) in
  Arduino.bme280_sensor (vars r0) = false
  /\ out r1 = Normal tt
  /\ Arduino.bme280_sensor (vars r1) = true
  /\ trace r1 = [Sleep 5; SensorInit true]
  /\ slept (trace r1) = 5%Z.
Proof.
  cbv [late_sensor rd]. py_run. repeat split.
Qed.

(** C6, amended: in a cycle that starts with the altitude source not ready
    the controller sleeps 5 s and then attempts its re-initialisation.  On
    success the sensor handle is set and control passes on within the same
    cycle with no further delay (the 5 s spent); on failure it sleeps a
    further 25 s and starts the next cycle without reading the altitude, so
    that a failed attempt costs 5 + 25 s, and 25 + 5 s lie between one
    failed attempt and the next. *)
Theorem reinit_backoff :
  (forall v w,
      Arduino.bme280_sensor v = false ->
      let r := Arduino.reinit_sensor v w in
      if sensor_init w 0%nat then
        out r = Normal tt /\ Arduino.bme280_sensor (vars r) = true
        /\ trace r = [Sleep 5; SensorInit true]
      else
        out r = Continued /\ Arduino.bme280_sensor (vars r) = false
        /\ trace r = [Sleep 5; SensorInit false; Sleep 25]
        /\ slept (trace r) = (5 + 25)%Z)
  /\ (forall cfg v w,
      Arduino.bme280_sensor v = false ->
      sensor_init w 0%nat = false ->
      out (Arduino.cycle cfg v w) = Continued
      /\ trace (Arduino.cycle cfg v w) = [Sleep 5; SensorInit false; Sleep 25])
  /\ (forall cfg v w,
      Arduino.bme280_sensor v = false ->
      sensor_init w 0%nat = false ->
      sensor_init w 1%nat = false ->
      trace (while_true 2 (Arduino.cycle cfg) v w)
      = [Sleep 5; SensorInit false; Sleep 25; Sleep 5; SensorInit false; Sleep 25]).
Proof.
  refine (conj _ (conj _ _)).
  - intros [flag sensor servo loc] [si sv sw al]. simpl. intros ->.
    py_run; repeat split.
  - intros cfg [flag sensor servo loc] [si sv sw al]. simpl. intros -> Hi.
    py_step. rewrite Hi. py_step. split; reflexivity.
  - intros cfg [flag sensor servo loc] [si sv sw al]. simpl. intros -> H0 H1.
    cbv [while_true].
    py_step. rewrite H0. py_step. rewrite H1. py_step. reflexivity.
Qed.

(** The sensor is not ready and its re-initialisation fails. *)
Lemma reinit_backoff_witness :
  out (Arduino.cycle source_config
         (Arduino.mkVars false false false Arduino.Unbound)
         (mkWorld (script [false] true) (script [] true) (script [] true)
            (script [] ReadsNone)))
  = Continued.
Proof.
  destruct reinit_backoff as (_ & failed & _).
  apply (failed source_config
           (Arduino.mkVars false false false Arduino.Unbound)
           (mkWorld (script [false] true) (script [] true) (script [] true)
              (script [] ReadsNone)) eq_refl eq_refl).
Defined.

(** ** The thresholds *)

Lemma rpi_loop_reads_first cfg n v w :
  n <> O ->
  exists r rest,
    trace (while_true n (RaspberryPi.cycle cfg) v w) = AltitudeRead r :: rest.
Proof.
  destruct n as [|n]; [congruence|]. intros _.
  rewrite while_true_S.
  destruct v as [flag p], w as [si sv sw al].
  py_run;
    match goal with
    | |- context [while_true n ?b ?v ?w] =>
        destruct (while_true n b v w) as [o2 v2 w2 t2]
    end;
    simpl; eauto.
Qed.

(** C9, as stated, fails: with the close threshold above the open threshold
    [meteorite_collector.py] starts its loop all the same, and a steady
    19000 m between the two opens the door in one cycle and closes it in the
    next. *)
Lemma reversed_thresholds_are_accepted :
  let r := RaspberryPi.main reversed_config 2 RaspberryPi.initial
             (healthy [] (rd 19000)) in
  ALTITUDE_OPEN reversed_config <= ALTITUDE_CLOSE reversed_config
  /\ out r = StillLooping
  /\ filter is_altitude_event (trace r)
     = [AltitudeRead (rd 19000); AltitudeRead (rd 19000)]
  /\ RaspberryPi.commanded (trace r) = [Closed; Open; Closed].
Proof.
  split; [discriminate|].
  cbv [RaspberryPi.main healthy rd while_true].
  py_run. repeat split.
Qed.

(** C9, amended: the thresholds are the module constants 20000 and 18000,
    which satisfy close < open; neither program checks them.  Up to the
    loop both behave the same whatever the thresholds are, and
    [meteorite_collector.py] enters its loop with any thresholds as soon as
    the devices initialise. *)
Theorem thresholds_are_constants_never_checked :
  ALTITUDE_OPEN source_config == 20000
  /\ ALTITUDE_CLOSE source_config == 18000
  /\ ALTITUDE_CLOSE source_config < ALTITUDE_OPEN source_config
  /\ (forall cfg cfg' w,
      Arduino.main_loop cfg 0 Arduino.initial w
      = Arduino.main_loop cfg' 0 Arduino.initial w)
  /\ (forall cfg cfg' w,
      RaspberryPi.main cfg 0 RaspberryPi.initial w
      = RaspberryPi.main cfg' 0 RaspberryPi.initial w)
  /\ (forall cfg n w,
      sensor_init w 0%nat = true ->
      servo_init w 0%nat = true ->
      servo_write w 0%nat = true ->
      servo_write w 1%nat = true ->
      servo_write w 2%nat = true ->
      out (RaspberryPi.main cfg n RaspberryPi.initial w) = StillLooping
      /\ (n <> O -> exists r rest,
             filter is_altitude_event
               (trace (RaspberryPi.main cfg n RaspberryPi.initial w))
             = AltitudeRead r :: rest)).
Proof.
  refine (conj _ (conj _ (conj _ (conj _ (conj _ _)))));
    try reflexivity.
  intros cfg n [si sv sw al]. simpl. intros Hsi Hsv Hw0 Hw1 Hw2.
  unfold RaspberryPi.main.
  pose proof (rpi_loop_still_looping cfg n) as Hs.
  pose proof (@rpi_loop_reads_first cfg n) as Hr.
  set (loop := while_true n (RaspberryPi.cycle cfg)) in *. clearbody loop.
  py_step. rewrite Hsi. py_step. rewrite Hsv. py_step.
  rewrite Hw0. py_step. rewrite Hw1. py_step. rewrite Hw2. py_step.
  match goal with
  | |- context [loop ?v ?w] =>
      specialize (Hs v w); specialize (Hr v w);
      destruct (loop v w) as [o2 v2 w2 t2]
  end.
  simpl in Hs, Hr. destruct Hs as [-> _]. py_step.
  split; [reflexivity|].
  intros Hn. destruct (Hr Hn) as (r & rest & ->). simpl. eauto.
Qed.

(** The loop is entered with the thresholds the wrong way round. *)
Lemma thresholds_are_constants_never_checked_witness :
  out (RaspberryPi.main reversed_config 2 RaspberryPi.initial
         (healthy [] (rd 19000))) = StillLooping.
Proof.
  destruct thresholds_are_constants_never_checked as (_ & _ & _ & _ & _ & enters).
  apply (enters reversed_config 2%nat (healthy [] (rd 19000))
           eq_refl eq_refl eq_refl eq_refl eq_refl).
Defined.

(** * Further properties of the three scripts *)

Unset Implicit Arguments.

(** ** [collector_arduino.py] from its start *)

Lemma arduino_commanded_app (t1 t2 : list event) :
  Arduino.commanded (t1 ++ t2) = Arduino.commanded t1 ++ Arduino.commanded t2.
Proof.
  induction t1 as [|e t1 IH]; [reflexivity|].
  destruct e; simpl; rewrite ?IH, ?app_assoc; reflexivity.
Qed.

Lemma sensor_retries_command_nothing (t : list event) :
  forallb is_sensor_retry_event t = true ->
  Arduino.commanded t = [] /\ filter is_altitude_event t = [].
Proof.
  induction t as [|e t IH]; [split; reflexivity|].
  simpl. intros H. apply andb_true_iff in H. destruct H as [He Ht].
  destruct (IH Ht) as [Hc Hf].
  destruct e; simpl in *; try discriminate; auto.
Qed.

Section ArduinoFromStart.
Import Arduino.
Variable cfg : Config.

(** While the local [collector_servo] is unbound the loop does nothing but
    retry the sensor, and it keeps the flag, the servo handle and the
    binding. *)
Lemma arduino_loop_unbound_trace (n : nat) :
  forall (v : Vars) (w : World),
    local_collector_servo v = Unbound ->
    forallb is_sensor_retry_event (trace (while_true n (cycle cfg) v w)) = true
    /\ collector_is_open (vars (while_true n (cycle cfg) v w))
       = collector_is_open v.
Proof.
  induction n as [|n IH]; intros v w Hloc; [split; reflexivity|].
  rewrite while_true_S, (arduino_cycle_unbound cfg v w Hloc).
  destruct (bme280_sensor v) eqn:Hs; [split; reflexivity|].
  destruct (sensor_init w 0%nat) eqn:Hi.
  - destruct v; split; reflexivity.
  - specialize (IH (set_bme280_sensor false v)
      (mkWorld (later (sensor_init w)) (servo_init w) (servo_write w) (altitude w))).
    destruct (while_true n (cycle cfg) _ _) as [o2 v2 w2 t2].
    simpl in *. destruct v as [flag sensor servo loc]. simpl in *.
    destruct (IH Hloc) as [Ht Hf]. split; assumption.
Qed.

Lemma arduino_startup_commands (w : World) :
  commanded (trace (startup initial w))
    = (if servo_init w 0%nat then [Closed] else [])
  /\ filter is_altitude_event (trace (startup initial w)) = []
  /\ collector_is_open (vars (startup initial w)) = false.
Proof.
  destruct w as [si sv sw al]. py_run; repeat split.
Qed.

Lemma arduino_never_reads_nor_opens (n : nat) (w : World) :
  filter is_altitude_event (trace (main_loop cfg n initial w)) = []
  /\ commanded (trace (main_loop cfg n initial w))
     = (if servo_init w 0%nat then [Closed] else [])
  /\ collector_is_open (vars (main_loop cfg n initial w)) = false.
Proof.
  unfold main_loop, bind.
  destruct (arduino_startup_leaves_unbound w) as (Ho & Hl & _ & _).
  destruct (arduino_startup_commands w) as (Hc & Hf & Hflag).
  destruct (startup initial w) as [o v1 w1 t1]. simpl in Ho, Hl, Hc, Hf, Hflag.
  subst o.
  destruct (arduino_loop_unbound_trace n v1 w1 Hl) as [Ht Hkeep].
  destruct (while_true n (cycle cfg) v1 w1) as [o2 v2 w2 t2].
  simpl in *.
  destruct (sensor_retries_command_nothing t2 Ht) as [Hc2 Hf2].
  rewrite filter_app, arduino_commanded_app, Hc, Hf, Hc2, Hf2.
  split; [reflexivity|]. split; [apply app_nil_r|].
  rewrite Hkeep. exact Hflag.
Qed.
End ArduinoFromStart.

(** X1: [main_loop] of [collector_arduino.py], run from the start of the
    script for any number of cycles against any hardware, never reads the
    altitude, commands nothing but the Close of the start (and that only
    when the servo initialised), and leaves [collector_is_open] at
    [False]: the door is never opened. *)
Theorem arduino_door_never_opens :
  forall cfg n w,
    filter is_altitude_event (trace (Arduino.main_loop cfg n Arduino.initial w)) = []
    /\ Arduino.commanded (trace (Arduino.main_loop cfg n Arduino.initial w))
       = (if servo_init w 0%nat then [Closed] else [])
    /\ Arduino.collector_is_open (vars (Arduino.main_loop cfg n Arduino.initial w))
       = false.
Proof. intros. apply arduino_never_reads_nor_opens. Qed.

(** ** What can leave the loop of [collector_arduino.py] *)

Section ArduinoLoopBody.
Import Arduino.
Variable cfg : Config.

Lemma arduino_cycle_raises_only_unbound (v : Vars) (w : World) (e : exn) :
  out (cycle cfg v w) = Raised e ->
  e = UnboundLocalError /\ local_collector_servo v = Unbound.
Proof.
  destruct v as [flag sensor servo loc], w as [si sv sw al].
  py_run; intros H; try discriminate H; inversion H; subst; split; reflexivity.
Qed.

Lemma arduino_cycle_bound (v : Vars) (w : World) :
  local_collector_servo v = BoundNone ->
  (out (cycle cfg v w) = Normal tt \/ out (cycle cfg v w) = Continued)
  /\ local_collector_servo (vars (cycle cfg v w)) = BoundNone.
Proof.
  destruct v as [flag sensor servo loc], w as [si sv sw al]. simpl.
  intros ->. py_run; auto.
Qed.

Lemma arduino_loop_bound (n : nat) :
  forall (v : Vars) (w : World),
    local_collector_servo v = BoundNone ->
    out (while_true n (cycle cfg) v w) = StillLooping
    /\ local_collector_servo (vars (while_true n (cycle cfg) v w)) = BoundNone.
Proof.
  induction n as [|n IH]; intros v w Hloc.
  - split; [reflexivity | exact Hloc].
  - rewrite while_true_S.
    destruct (arduino_cycle_bound v w Hloc) as [Ho Hl].
    destruct (cycle cfg v w) as [o v1 w1 t1]. simpl in Ho, Hl.
    destruct (IH v1 w1 Hl) as [Ho2 Hl2].
    destruct (while_true n (cycle cfg) v1 w1) as [o2 v2 w2 t2].
    simpl in Ho2, Hl2.
    destruct Ho as [-> | ->]; simpl; split; assumption.
Qed.

Lemma arduino_failed_retry (v : Vars) (w : World) :
  bme280_sensor v = false ->
  sensor_init w 0%nat = false ->
  cycle cfg v w
  = mkResult Continued v
      (mkWorld (later (sensor_init w)) (servo_init w) (servo_write w) (altitude w))
      [Sleep 5; SensorInit false; Sleep 25].
Proof.
  destruct v as [flag sensor servo loc], w as [si sv sw al]. simpl.
  intros -> Hi. py_step. rewrite Hi. py_step. reflexivity.
Qed.

Lemma arduino_retry_cadence (n : nat) :
  forall (v : Vars) (w : World),
    bme280_sensor v = false ->
    (forall k, (k < n)%nat -> sensor_init w k = false) ->
    out (while_true n (cycle cfg) v w) = StillLooping
    /\ vars (while_true n (cycle cfg) v w) = v
    /\ trace (while_true n (cycle cfg) v w)
       = concat (repeat [Sleep 5; SensorInit false; Sleep 25] n)
    /\ slept (trace (while_true n (cycle cfg) v w)) = (30 * Z.of_nat n)%Z.
Proof.
  induction n as [|n IH]; intros v w Hs Hfail.
  - repeat split.
  - rewrite while_true_S, (arduino_failed_retry v w Hs) by (apply Hfail; lia).
    specialize (IH v
      (mkWorld (later (sensor_init w)) (servo_init w) (servo_write w) (altitude w))
      Hs).
    destruct (while_true n (cycle cfg) v _) as [o2 v2 w2 t2].
    cbn [out vars trace] in IH.
    destruct IH as (Ho & Hv & Ht & Hz).
    { intros k Hk. unfold later. apply Hfail. lia. }
    subst o2 v2 t2. cbn [out vars trace app concat repeat].
    split; [reflexivity|]. split; [reflexivity|]. split; [reflexivity|].
    cbn [slept]. rewrite Hz, Nat2Z.inj_succ. lia.
Qed.
End ArduinoLoopBody.

(** X2: the body of the loop of [collector_arduino.py] handles every
    hardware failure: the only exception that can leave it is the
    [UnboundLocalError] of line 131, and only while the local
    [collector_servo] is unbound.  Once that name is bound the loop goes on
    for ever, whatever the sensor and the servo do. *)
Theorem arduino_loop_left_only_by_unbound_local :
  (forall cfg v w e,
      out (Arduino.cycle cfg v w) = Raised e ->
      e = UnboundLocalError
      /\ Arduino.local_collector_servo v = Arduino.Unbound)
  /\ (forall cfg n v w,
      Arduino.local_collector_servo v = Arduino.BoundNone ->
      out (while_true n (Arduino.cycle cfg) v w) = StillLooping
      /\ Arduino.local_collector_servo (vars (while_true n (Arduino.cycle cfg) v w))
         = Arduino.BoundNone).
Proof.
  split.
  - intros cfg v w e. apply arduino_cycle_raises_only_unbound.
  - intros cfg n v w. apply arduino_loop_bound.
Qed.

(** Three cycles in which the read raises, the servo cannot be set up and
    the door command fails. *)
Lemma arduino_loop_left_only_by_unbound_local_witness :
  out (while_true 3 (Arduino.cycle source_config) open_door unclassified_error)
  = StillLooping
  /\ out (Arduino.cycle source_config Arduino.initial (healthy [] ReadsNone))
     = Raised UnboundLocalError.
Proof.
  destruct arduino_loop_left_only_by_unbound_local as [raises bound].
  split.
  - apply (bound source_config 3%nat open_door unclassified_error eq_refl).
  - destruct (raises source_config Arduino.initial
                (mkWorld (script [] true) (script [] true) (script [] true)
                   (script [] ReadsNone))
                UnboundLocalError eq_refl) as [_ _].
    reflexivity.
Defined.

(** X3: while the sensor cannot be initialised the loop of
    [collector_arduino.py] only retries: each cycle sleeps 5 s, tries the
    sensor, sleeps 25 s and starts over, so [n] failed cycles sleep [30 n]
    seconds, change no variable and touch neither the servo nor the
    altitude. *)
Theorem arduino_sensor_retry_cadence :
  forall cfg n v w,
    Arduino.bme280_sensor v = false ->
    (forall k, (k < n)%nat -> sensor_init w k = false) ->
    out (while_true n (Arduino.cycle cfg) v w) = StillLooping
    /\ vars (while_true n (Arduino.cycle cfg) v w) = v
    /\ trace (while_true n (Arduino.cycle cfg) v w)
       = concat (repeat [Sleep 5; SensorInit false; Sleep 25] n)
    /\ slept (trace (while_true n (Arduino.cycle cfg) v w)) = (30 * Z.of_nat n)%Z.
Proof. intros cfg n v w. apply arduino_retry_cadence. Qed.

(** Four cycles with a sensor that never answers: two minutes of sleep. *)
Lemma arduino_sensor_retry_cadence_witness :
  slept (trace (while_true 4 (Arduino.cycle source_config) Arduino.initial
                  (mkWorld (script [] false) (script [] true) (script [] true)
                     (script [] ReadsNone))))
  = 120%Z.
Proof.
  apply (arduino_sensor_retry_cadence source_config 4%nat Arduino.initial
           (mkWorld (script [] false) (script [] true) (script [] true)
              (script [] ReadsNone)) eq_refl).
  intros k _. destruct k as [|[|[|[|k]]]]; reflexivity.
Defined.

(** ** The door functions of [collector_arduino.py] *)

(** X4: [open_collector_door] and [close_collector_door] never raise and
    touch nothing but [collector_is_open]: they make one servo write when
    the servo handle is set and none otherwise, and the flag takes the
    commanded value exactly when that write goes through. *)
Theorem arduino_door_functions_are_safe :
  forall v w,
    Arduino.open_collector_door v w
    = mkResult (Normal tt)
        (Arduino.set_collector_is_open
           (Arduino.collector_is_open v
            || (Arduino.collector_servo v && servo_write w 0%nat)) v)
        (if Arduino.collector_servo v
         then mkWorld (sensor_init w) (servo_init w) (later (servo_write w))
                (altitude w)
         else w)
        (if Arduino.collector_servo v
         then [ServoAngle SERVO_OPEN_ANGLE (servo_write w 0%nat)] else [])
    /\ Arduino.close_collector_door v w
       = mkResult (Normal tt)
           (Arduino.set_collector_is_open
              (Arduino.collector_is_open v
               && negb (Arduino.collector_servo v && servo_write w 0%nat)) v)
           (if Arduino.collector_servo v
            then mkWorld (sensor_init w) (servo_init w) (later (servo_write w))
                   (altitude w)
            else w)
           (if Arduino.collector_servo v
            then [ServoAngle SERVO_CLOSED_ANGLE (servo_write w 0%nat)] else []).
Proof.
  intros [flag sensor servo loc] [si sv sw al].
  split; py_run; destruct flag; reflexivity.
Qed.

(** ** How [meteorite_collector.py] starts and what it sends to the servo *)

Lemma duty_cycle_bounds (angle : Q) :
  2.5 <= RaspberryPi.angle_to_duty_cycle angle
  /\ RaspberryPi.angle_to_duty_cycle angle <= 12.5.
Proof.
  assert (scale : forall x : Q, x / 180 * 10 == x * (1 # 18)) by (intro x; field).
  unfold RaspberryPi.angle_to_duty_cycle.
  destruct (RaspberryPi.Qlt_bool angle 0) eqn:Lo.
  - replace (RaspberryPi.Qlt_bool 180 0) with false by reflexivity.
    rewrite scale. split; lra.
  - apply Qlt_bool_false in Lo.
    destruct (RaspberryPi.Qlt_bool 180 angle) eqn:Hi; rewrite scale.
    + split; lra.
    + apply Qlt_bool_false in Hi. split; lra.
Qed.

Section RaspberryPiRuns.
Import RaspberryPi.
Variable cfg : Config.

Lemma rpi_set_servo_angle_in_range (angle : Z) (v : Vars) (w : World) :
  Forall duty_in_range (trace (set_servo_angle angle v w)).
Proof.
  destruct v as [flag p], w as [si sv sw al].
  py_run; duty_ok duty_cycle_bounds.
Qed.

Lemma rpi_cycle_in_range (v : Vars) (w : World) :
  Forall duty_in_range (trace (cycle cfg v w)).
Proof.
  destruct v as [flag p], w as [si sv sw al].
  py_run; duty_ok duty_cycle_bounds.
Qed.

Lemma rpi_loop_in_range (n : nat) :
  forall (v : Vars) (w : World),
    Forall duty_in_range (trace (while_true n (cycle cfg) v w)).
Proof.
  induction n as [|n IH]; intros v w; [constructor|].
  rewrite while_true_S.
  pose proof (rpi_cycle_in_range v w) as Hc.
  destruct (cycle cfg v w) as [o v1 w1 t1]. simpl in Hc.
  specialize (IH v1 w1).
  destruct (while_true n (cycle cfg) v1 w1) as [o2 v2 w2 t2]. simpl in IH.
  destruct o as [[]|e| |]; simpl; try assumption;
    apply Forall_app; split; assumption.
Qed.

Lemma rpi_main_in_range (n : nat) (w : World) :
  Forall duty_in_range (trace (main cfg n initial w)).
Proof.
  unfold main.
  pose proof (rpi_loop_still_looping cfg n) as Hs.
  pose proof (rpi_loop_in_range n) as Hr.
  set (loop := while_true n (cycle cfg)) in *. clearbody loop.
  destruct w as [si sv sw al].
  py_run; try duty_ok duty_cycle_bounds.
  match goal with
  | |- context [loop ?v ?w] =>
      specialize (Hs v w); specialize (Hr v w);
      destruct (loop v w) as [o2 v2 w2 t2]
  end.
  simpl in Hs, Hr. destruct Hs as [-> _]. py_step.
  repeat (apply Forall_cons;
          [cbn [duty_in_range]; try exact I;
           first [left; reflexivity | right; apply duty_cycle_bounds]|]).
  exact Hr.
Qed.

Lemma rpi_main_outcome (n : nat) (w : World) :
  out (main cfg n initial w)
  = (if negb (sensor_init w 0%nat) then Normal tt
     else if servo_init w 0%nat
             && (servo_write w 0%nat && (servo_write w 1%nat && servo_write w 2%nat))
          then StillLooping
          else Raised SystemExit)
  /\ match out (main cfg n initial w) with
     | Normal _ => trace (main cfg n initial w) = [SensorInit false]
     | Raised _ =>
         reads_in (trace (main cfg n initial w)) = 0%nat
         /\ last (trace (main cfg n initial w)) (Sleep 0) = GpioCleanup
     | _ => True
     end.
Proof.
  unfold main.
  pose proof (rpi_loop_still_looping cfg n) as Hs.
  set (loop := while_true n (cycle cfg)) in *. clearbody loop.
  destruct w as [si sv sw al].
  py_run; try (split; [reflexivity | repeat split]).
  match goal with
  | |- context [loop ?v ?w] =>
      specialize (Hs v w); destruct (loop v w) as [o2 v2 w2 t2]
  end.
  simpl in Hs. destruct Hs as [-> _]. py_step. split; [reflexivity | exact I].
Qed.
End RaspberryPiRuns.

(** X5: [main] of [meteorite_collector.py] ends only at its start.  It
    returns without touching the servo when the sensor cannot be
    initialised, it leaves by [exit()] after a GPIO cleanup and before any
    altitude is read when a step of [setup_servo] fails, and in every other
    case it is in its loop for as long as it is run. *)
Theorem rpi_main_ends_only_at_startup :
  forall cfg n w,
    out (RaspberryPi.main cfg n RaspberryPi.initial w)
    = (if negb (sensor_init w 0%nat) then Normal tt
       else if servo_init w 0%nat
               && (servo_write w 0%nat
                   && (servo_write w 1%nat && servo_write w 2%nat))
            then StillLooping
            else Raised SystemExit)
    /\ match out (RaspberryPi.main cfg n RaspberryPi.initial w) with
       | Normal _ =>
           trace (RaspberryPi.main cfg n RaspberryPi.initial w) = [SensorInit false]
       | Raised _ =>
           reads_in (trace (RaspberryPi.main cfg n RaspberryPi.initial w)) = 0%nat
           /\ last (trace (RaspberryPi.main cfg n RaspberryPi.initial w)) (Sleep 0)
              = GpioCleanup
       | _ => True
       end.
Proof. intros. apply rpi_main_outcome. Qed.

(** X6: the servo of [meteorite_collector.py] is never driven outside its
    range.  Whatever angle [set_servo_angle] is given, every duty cycle it
    writes is 0 (the release) or lies between 2.5 and 12.5, and so is every
    duty cycle written in any run of [main]. *)
Theorem rpi_duty_cycles_stay_in_range :
  (forall angle v w,
      Forall duty_in_range (trace (RaspberryPi.set_servo_angle angle v w)))
  /\ (forall cfg n w,
      Forall duty_in_range (trace (RaspberryPi.main cfg n RaspberryPi.initial w))).
Proof.
  split.
  - intros. apply rpi_set_servo_angle_in_range.
  - intros. apply rpi_main_in_range.
Qed.

(** X7: [angle_to_duty_cycle] is monotone: a larger angle never gives a
    smaller duty cycle.  (Nothing is said about strictly larger results:
    the script computes in doubles, where neighbouring angles can round to
    the same duty cycle.) *)
Theorem angle_to_duty_cycle_monotone :
  forall a b,
    a <= b ->
    RaspberryPi.angle_to_duty_cycle a <= RaspberryPi.angle_to_duty_cycle b.
Proof.
  intros a b Hab.
  assert (scale : forall x : Q, x / 180 * 10 == x * (1 # 18)) by (intro x; field).
  unfold RaspberryPi.angle_to_duty_cycle.
  destruct (RaspberryPi.Qlt_bool a 0) eqn:La;
    destruct (RaspberryPi.Qlt_bool b 0) eqn:Lb;
    try (apply Qlt_bool_true in La); try (apply Qlt_bool_false in La);
    try (apply Qlt_bool_true in Lb); try (apply Qlt_bool_false in Lb);
    try replace (RaspberryPi.Qlt_bool 180 0) with false by reflexivity;
    try (destruct (RaspberryPi.Qlt_bool 180 a) eqn:Ha;
         [apply Qlt_bool_true in Ha | apply Qlt_bool_false in Ha]);
    try (destruct (RaspberryPi.Qlt_bool 180 b) eqn:Hb;
         [apply Qlt_bool_true in Hb | apply Qlt_bool_false in Hb]);
    rewrite !scale; lra.
Qed.

(** 45 and 135 degrees, and an angle below the range against one above it. *)
Lemma angle_to_duty_cycle_monotone_witness :
  RaspberryPi.angle_to_duty_cycle 45 <= RaspberryPi.angle_to_duty_cycle 135
  /\ RaspberryPi.angle_to_duty_cycle (-20) <= RaspberryPi.angle_to_duty_cycle 400.
Proof.
  split.
  - apply (angle_to_duty_cycle_monotone 45 135). discriminate.
  - apply (angle_to_duty_cycle_monotone (-20) 400). discriminate.
Defined.

(** ** A steady altitude does not make the door chatter *)

Lemma rule_settles cfg s a t :
  ALTITUDE_CLOSE cfg <= ALTITUDE_OPEN cfg ->
  transition_rule cfg s a = Some t ->
  transition_rule cfg t a = None.
Proof.
  intros Hcfg. unfold transition_rule.
  destruct s.
  - destruct (py_lt a (ALTITUDE_CLOSE cfg)) eqn:Hlt; [|discriminate].
    intros [= <-].
    destruct a as [q| | |]; simpl in *; try discriminate; try reflexivity.
    apply negb_true_iff in Hlt.
    destruct (Qle_bool q (ALTITUDE_OPEN cfg)) eqn:Hle; [reflexivity|].
    exfalso.
    assert (Hq : q <= ALTITUDE_OPEN cfg).
    { apply Qle_trans with (ALTITUDE_CLOSE cfg); [|exact Hcfg].
      apply Qlt_le_weak, Qnot_le_lt. intro L.
      apply Qle_bool_iff in L. congruence. }
    apply Qle_bool_iff in Hq. congruence.
  - destruct (py_gt a (ALTITUDE_OPEN cfg)) eqn:Hgt; [|discriminate].
    intros [= <-].
    destruct a as [q| | |]; simpl in *; try discriminate; try reflexivity.
    apply negb_true_iff in Hgt.
    destruct (Qle_bool (ALTITUDE_CLOSE cfg) q) eqn:Hle; [reflexivity|].
    exfalso.
    assert (Hq : ALTITUDE_CLOSE cfg <= q).
    { apply Qle_trans with (ALTITUDE_OPEN cfg); [exact Hcfg|].
      apply Qlt_le_weak, Qnot_le_lt. intro L.
      apply Qle_bool_iff in L. congruence. }
    apply Qle_bool_iff in Hq. congruence.
Qed.

Lemma rpi_commanded_app (t1 t2 : list event) :
  RaspberryPi.commanded (t1 ++ t2)
  = RaspberryPi.commanded t1 ++ RaspberryPi.commanded t2.
Proof.
  induction t1 as [|e t1 IH]; [reflexivity|].
  destruct e; simpl; rewrite ?IH, ?app_assoc; reflexivity.
Qed.

Section RaspberryPiSteady.
Import RaspberryPi.
Variable cfg : Config.
Variable a : pyfloat.

(** One cycle on the reading [a]: the next reading is the next of the
    sensor, and the flag either stays or becomes the target the rule
    names. *)
Lemma rpi_cycle_steady (v : Vars) (w : World) :
  pwm v = true ->
  altitude w 0%nat = Reads a ->
  altitude (hw (cycle cfg v w)) = later (altitude w)
  /\ (collector_is_open (vars (cycle cfg v w)) = collector_is_open v
      \/ transition_rule cfg (state_of (collector_is_open v)) a
         = Some (state_of (collector_is_open (vars (cycle cfg v w))))).
Proof.
  destruct v as [flag p], w as [si sv sw al]. simpl. intros -> Hr.
  unfold transition_rule, state_of.
  py_step. rewrite Hr. py_run; auto.
Qed.

Lemma rpi_loop_steady (n : nat) :
  ALTITUDE_CLOSE cfg <= ALTITUDE_OPEN cfg ->
  forall (v : Vars) (w : World),
    pwm v = true ->
    (forall k, altitude w k = Reads a) ->
    forall c,
      In c (commanded (trace (while_true n (cycle cfg) v w))) ->
      transition_rule cfg (state_of (collector_is_open v)) a = Some c.
Proof.
  intros Hcfg.
  induction n as [|n IH]; intros v w Hp Hsteady c; [intros []|].
  rewrite while_true_S.
  pose proof (rpi_answer_to_reading cfg v w) as Hcmd.
  rewrite (Hsteady 0%nat), Hp in Hcmd.
  destruct (rpi_cycle_steady v w Hp (Hsteady 0%nat)) as [Halt Hflag].
  destruct (rpi_cycle_goes_on cfg v w) as [Ho Hp1].
  destruct (cycle cfg v w) as [o v1 w1 t1]. simpl in Hcmd, Halt, Hflag, Ho, Hp1.
  assert (Hp1' : pwm v1 = true) by congruence.
  assert (Hsteady1 : forall k, altitude w1 k = Reads a).
  { intro k. rewrite Halt. unfold later. apply Hsteady. }
  specialize (IH v1 w1 Hp1' Hsteady1 c).
  destruct (while_true n (cycle cfg) v1 w1) as [o2 v2 w2 t2]. simpl in IH.
  assert (Hin : In c (commanded (t1 ++ t2)) ->
                transition_rule cfg (state_of (collector_is_open v)) a = Some c).
  { rewrite rpi_commanded_app, Hcmd. intros Hin.
    apply in_app_or in Hin. destruct Hin as [Hin | Hin].
    - destruct (transition_rule cfg (state_of (collector_is_open v)) a);
        simpl in Hin; [destruct Hin as [-> | []]; reflexivity | destruct Hin].
    - specialize (IH Hin).
      destruct Hflag as [Hsame | Hmoved].
      + rewrite <- Hsame. exact IH.
      + rewrite (rule_settles cfg _ a _ Hcfg Hmoved) in IH. discriminate. }
  destruct Ho as [-> | ->]; simpl; exact Hin.
Qed.
End RaspberryPiSteady.

(** X8: with the close threshold not above the open threshold, a steady
    altitude reading never makes the loop of [meteorite_collector.py]
    command the door both ways: over any number of cycles on the same
    reading, all the door commands issued ask for the same target. *)
Theorem rpi_steady_reading_never_chatters :
  forall cfg a n v w,
    ALTITUDE_CLOSE cfg <= ALTITUDE_OPEN cfg ->
    RaspberryPi.pwm v = true ->
    (forall k, altitude w k = Reads a) ->
    forall c c',
      In c (RaspberryPi.commanded (trace (while_true n (RaspberryPi.cycle cfg) v w))) ->
      In c' (RaspberryPi.commanded (trace (while_true n (RaspberryPi.cycle cfg) v w))) ->
      c = c'.
Proof.
  intros cfg a n v w Hcfg Hp Hsteady c c' Hc Hc'.
  pose proof (rpi_loop_steady cfg a n Hcfg v w Hp Hsteady c Hc) as H1.
  pose proof (rpi_loop_steady cfg a n Hcfg v w Hp Hsteady c' Hc') as H2.
  congruence.
Qed.

(** A steady 21000 m with the thresholds of the script and a servo whose
    first write fails: the Open command is repeated, never reversed. *)
Lemma rpi_steady_reading_never_chatters_witness :
  RaspberryPi.commanded
    (trace (while_true 3 (RaspberryPi.cycle source_config)
              (RaspberryPi.mkVars false true) failing_write))
  = [Open; Open]
  /\ Open = Open.
Proof.
  split; [reflexivity|].
  apply (rpi_steady_reading_never_chatters source_config
           (Finite (inject_Z 21000)) 3%nat
           (RaspberryPi.mkVars false true) failing_write).
  - discriminate.
  - reflexivity.
  - intros k. destruct k as [|k]; [reflexivity|]. destruct k; reflexivity.
  - left. reflexivity.
  - left. reflexivity.
Defined.

(** ** The cadence of [meteorite_collector.py] *)

Lemma slept_app (t1 t2 : list event) :
  slept (t1 ++ t2) = (slept t1 + slept t2)%Z.
Proof.
  induction t1 as [|e t1 IH]; [reflexivity|].
  destruct e; simpl; rewrite ?IH; lia.
Qed.

Lemma reads_in_app (t1 t2 : list event) :
  reads_in (t1 ++ t2) = (reads_in t1 + reads_in t2)%nat.
Proof. unfold reads_in. rewrite filter_app, length_app. reflexivity. Qed.

Section RaspberryPiCadence.
Import RaspberryPi.
Variable cfg : Config.

Lemma rpi_cycle_cadence (v : Vars) (w : World) :
  reads_in (trace (cycle cfg v w)) = 1%nat
  /\ (10 <= slept (trace (cycle cfg v w)) <= 31)%Z
  /\ (altitude w 0%nat <> ReadsNone -> (30 <= slept (trace (cycle cfg v w)))%Z).
Proof.
  destruct v as [flag p], w as [si sv sw al].
  py_run; cbn; repeat split; try lia; try congruence; intros _; lia.
Qed.

Lemma rpi_loop_cadence (n : nat) :
  forall (v : Vars) (w : World),
    reads_in (trace (while_true n (cycle cfg) v w)) = n
    /\ (10 * Z.of_nat n <= slept (trace (while_true n (cycle cfg) v w))
        <= 31 * Z.of_nat n)%Z.
Proof.
  induction n as [|n IH]; intros v w; [split; [reflexivity | cbn; lia]|].
  rewrite while_true_S.
  destruct (rpi_cycle_cadence v w) as (Hr & Hs & _).
  destruct (rpi_cycle_goes_on cfg v w) as [Ho _].
  destruct (cycle cfg v w) as [o v1 w1 t1]. cbn [out trace] in Hr, Hs, Ho.
  destruct (IH v1 w1) as [Hr2 Hs2].
  destruct (while_true n (cycle cfg) v1 w1) as [o2 v2 w2 t2].
  cbn [trace] in Hr2, Hs2.
  destruct Ho as [-> | ->]; cbn [trace];
    rewrite reads_in_app, slept_app, Hr, Hr2, Nat2Z.inj_succ; split; lia.
Qed.
End RaspberryPiCadence.

(** X9: the loop of [meteorite_collector.py] reads the altitude exactly once
    in every cycle, whatever fails, and a cycle sleeps between 10 and 31
    seconds (at least 30 unless the reading is [None]); [n] cycles make [n]
    reads and sleep between [10 n] and [31 n] seconds. *)
Theorem rpi_polls_once_per_cycle :
  (forall cfg v w,
      reads_in (trace (RaspberryPi.cycle cfg v w)) = 1%nat
      /\ (10 <= slept (trace (RaspberryPi.cycle cfg v w)) <= 31)%Z
      /\ (altitude w 0%nat <> ReadsNone ->
          (30 <= slept (trace (RaspberryPi.cycle cfg v w)))%Z))
  /\ (forall cfg n v w,
      reads_in (trace (while_true n (RaspberryPi.cycle cfg) v w)) = n
      /\ (10 * Z.of_nat n
          <= slept (trace (while_true n (RaspberryPi.cycle cfg) v w))
          <= 31 * Z.of_nat n)%Z).
Proof.
  split.
  - intros. apply rpi_cycle_cadence.
  - intros. apply rpi_loop_cadence.
Qed.

(** A cycle whose read raises still sleeps the 30 s of the poll. *)
Lemma rpi_polls_once_per_cycle_witness :
  (30 <= slept (trace (RaspberryPi.cycle source_config
                         (RaspberryPi.mkVars false true)
                         (healthy [RaisesException] ReadsNone))))%Z.
Proof.
  destruct rpi_polls_once_per_cycle as [per_cycle _].
  apply (per_cycle source_config (RaspberryPi.mkVars false true)
           (healthy [RaisesException] ReadsNone)).
  discriminate.
Defined.

(** ** When [meteorite_collector.py] sets its flag *)

(** X10: [open_collector] and [close_collector] set [collector_is_open]
    exactly when [set_servo_angle] returns: when both of its writes go
    through, and also when [pwm] is [None], in which case nothing is
    written at all.  When a write fails they raise and leave the flag.
    [pwm] itself is never changed. *)
Theorem rpi_flag_set_when_set_servo_angle_returns :
  forall v w,
    let returns :=
      negb (RaspberryPi.pwm v) || (servo_write w 0%nat && servo_write w 1%nat) in
    out (RaspberryPi.open_collector v w)
      = (if returns then Normal tt else Raised OtherException)
    /\ vars (RaspberryPi.open_collector v w)
       = RaspberryPi.mkVars
           (if returns then true else RaspberryPi.collector_is_open v)
           (RaspberryPi.pwm v)
    /\ out (RaspberryPi.close_collector v w)
       = (if returns then Normal tt else Raised OtherException)
    /\ vars (RaspberryPi.close_collector v w)
       = RaspberryPi.mkVars
           (if returns then false else RaspberryPi.collector_is_open v)
           (RaspberryPi.pwm v)
    /\ (if RaspberryPi.pwm v then True
        else trace (RaspberryPi.open_collector v w) = []
             /\ trace (RaspberryPi.close_collector v w) = []).
Proof.
  intros [flag p] [si sv sw al]. cbv zeta.
  destruct p; cbn [RaspberryPi.pwm RaspberryPi.collector_is_open negb orb
                   servo_write].
  - destruct (sw 0%nat) eqn:H0; [destruct (sw 1%nat) eqn:H1|];
      cbn [andb]; py_step; rewrite ?H0; py_step; rewrite ?H1; py_step;
      repeat split.
  - py_step. repeat split.
Qed.

(** ** The log of [gas_detection.py] *)

Section GasLog.
Import GasDetection.

Lemma gas_logged_rows (s : sample) :
  logged s
  = match CO2 s, temperature s, pressure s, altitude s with
    | Some c, Some t, Some p, Some a =>
        if writerow_ok s then [Data (now s) c t p a] else []
    | _, _, _, _ => []
    end.
Proof.
  unfold logged, try_statement, try_body.
  destruct (CO2 s), (temperature s), (pressure s), (altitude s),
    (writerow_ok s); reflexivity.
Qed.

Lemma gas_try_statement_appends (s : sample) (file : list row) :
  try_statement s file = file ++ logged s.
Proof.
  unfold logged, try_statement, try_body.
  destruct (CO2 s), (temperature s), (pressure s), (altitude s),
    (writerow_ok s); simpl; rewrite ?app_nil_r; reflexivity.
Qed.

Lemma gas_polling_appends (n : nat) :
  forall (samples : nat -> sample) (file : list row),
    polling n samples file
    = (file ++ flat_map logged (map samples (seq 0 n)), repeat (Sleep 60) n).
Proof.
  induction n as [|n IH]; intros samples file.
  - simpl. rewrite app_nil_r. reflexivity.
  - cbn [polling]. rewrite IH, gas_try_statement_appends.
    rewrite <- app_assoc. cbn [seq map flat_map repeat].
    rewrite <- seq_shift, map_map. reflexivity.
Qed.

Lemma gas_logged_no_header (l : list sample) :
  filter is_header (flat_map logged l) = [].
Proof.
  induction l as [|s l IH]; [reflexivity|].
  cbn [flat_map]. rewrite filter_app, IH, gas_logged_rows.
  destruct (CO2 s), (temperature s), (pressure s), (altitude s),
    (writerow_ok s); reflexivity.
Qed.

Lemma gas_log_content (n : nat) (samples : nat -> sample) (file : list row) :
  log_sensor_data n true samples file
  = (StillLooping,
     file ++ (match file with [] => [Header] | _ :: _ => [] end)
          ++ flat_map logged (map samples (seq 0 n)),
     repeat (Sleep 60) n).
Proof.
  unfold log_sensor_data.
  destruct file as [|r file]; rewrite gas_polling_appends; reflexivity.
Qed.
End GasLog.

(** X11: [log_sensor_data] of [gas_detection.py] only ever appends.  After
    any number of cycles the file is what it was, then the header if it was
    empty, then one row for each cycle, in order, in which all four sensor
    reads and the write went through, and nothing for the other cycles; the
    loop is not ended by any of these failures and sleeps 60 s in every
    cycle. *)
Theorem gas_log_is_append_only :
  (forall n samples file,
      GasDetection.log_sensor_data n true samples file
      = (StillLooping,
         file ++ (match file with [] => [GasDetection.Header] | _ :: _ => [] end)
              ++ flat_map GasDetection.logged (map samples (seq 0 n)),
         repeat (Sleep 60) n))
  /\ (forall s,
      GasDetection.logged s
      = match GasDetection.CO2 s, GasDetection.temperature s,
              GasDetection.pressure s, GasDetection.altitude s with
        | Some c, Some t, Some p, Some a =>
            if GasDetection.writerow_ok s
            then [GasDetection.Data (GasDetection.now s) c t p a]
            else []
        | _, _, _, _ => []
        end).
Proof.
  split.
  - intros. apply gas_log_content.
  - intros. apply gas_logged_rows.
Qed.

(** X12: the header of [sensor_data.csv] is written once.  A run on an
    empty file puts the header first and no other header after it; a run on
    a file that is not empty adds none, so stopping the logger and starting
    it again on its own file never repeats the header. *)
Theorem gas_header_written_once :
  (forall n samples file,
      length (filter GasDetection.is_header
                (GasDetection.file_after
                   (GasDetection.log_sensor_data n true samples file)))
      = (length (filter GasDetection.is_header file)
         + match file with [] => 1 | _ :: _ => 0 end)%nat)
  /\ (forall n m samples samples',
      let first_run :=
        GasDetection.file_after (GasDetection.log_sensor_data n true samples []) in
      let second_run :=
        GasDetection.file_after
          (GasDetection.log_sensor_data m true samples' first_run) in
      hd_error second_run = Some GasDetection.Header
      /\ filter GasDetection.is_header second_run = [GasDetection.Header]
      /\ firstn (length first_run) second_run = first_run).
Proof.
  split.
  - intros n samples file. rewrite gas_log_content.
    unfold GasDetection.file_after. cbn [fst snd].
    rewrite !filter_app, gas_logged_no_header, app_nil_r, length_app.
    destruct file; reflexivity.
  - intros n m samples samples'. cbv zeta.
    set (rows := flat_map GasDetection.logged (map samples (seq 0 n))).
    set (rows' := flat_map GasDetection.logged (map samples' (seq 0 m))).
    assert (H1 : GasDetection.file_after
                   (GasDetection.log_sensor_data n true samples [])
                 = GasDetection.Header :: rows)
      by (rewrite gas_log_content; reflexivity).
    rewrite H1.
    assert (H2 : GasDetection.file_after
                   (GasDetection.log_sensor_data m true samples'
                      (GasDetection.Header :: rows))
                 = GasDetection.Header :: rows ++ rows')
      by (rewrite gas_log_content; reflexivity).
    rewrite H2.
    split; [reflexivity|]. split.
    + cbn [filter GasDetection.is_header].
      unfold rows, rows'.
      rewrite filter_app, !gas_logged_no_header. reflexivity.
    + cbn [length firstn]. f_equal.
      rewrite firstn_app, firstn_all, Nat.sub_diag. cbn [firstn].
      apply app_nil_r.
Qed.

(** ** Readings that move the door, and readings that cannot *)

(** X13: in a cycle of [meteorite_collector.py] whose servo writes go
    through, a valid reading moves the door as the hysteresis rule says:
    the flag ends at the target the rule names, and is left alone when the
    rule names none. *)
Theorem rpi_healthy_cycle_follows_rule :
  forall cfg v w a,
    RaspberryPi.pwm v = true ->
    altitude w 0%nat = Reads a ->
    servo_write w 0%nat = true ->
    servo_write w 1%nat = true ->
    out (RaspberryPi.cycle cfg v w) = Normal tt
    /\ state_of (RaspberryPi.collector_is_open (vars (RaspberryPi.cycle cfg v w)))
       = match transition_rule cfg
                 (state_of (RaspberryPi.collector_is_open v)) a with
         | Some target => target
         | None => state_of (RaspberryPi.collector_is_open v)
         end.
Proof.
  intros cfg [flag p] [si sv sw al] a. simpl. intros -> Hr H0 H1.
  unfold transition_rule, state_of.
  py_step. rewrite Hr. py_step.
  destruct flag; py_step.
  - destruct (py_lt a (ALTITUDE_CLOSE cfg)); py_step;
      rewrite ?H0; py_step; rewrite ?H1; py_step; split; reflexivity.
  - destruct (py_gt a (ALTITUDE_OPEN cfg)); py_step;
      rewrite ?H0; py_step; rewrite ?H1; py_step; split; reflexivity.
Qed.

(** 21000 m with the door closed and a working servo: the door is open
    after the cycle. *)
Lemma rpi_healthy_cycle_follows_rule_witness :
  state_of (RaspberryPi.collector_is_open
              (vars (RaspberryPi.cycle source_config
                       (RaspberryPi.mkVars false true)
                       (healthy [rd 21000] ReadsNone))))
  = Open.
Proof.
  apply (rpi_healthy_cycle_follows_rule source_config
           (RaspberryPi.mkVars false true) (healthy [rd 21000] ReadsNone)
           (Finite (inject_Z 21000)) eq_refl eq_refl eq_refl eq_refl).
Defined.

(** X14: readings that are not finite.  A [nan] compares neither above nor
    below a threshold, so with any thresholds it commands nothing and
    changes no variable in either script; an infinite reading acts like a
    reading beyond every threshold: plus infinity asks for Open when the
    door is closed, minus infinity for Close when it is open. *)
Theorem non_finite_readings :
  (forall cfg v si sv sw rest,
      RaspberryPi.cycle cfg v (mkWorld si sv sw (script [Reads NaN] rest))
      = mkResult (Normal tt) v
          (mkWorld si sv sw (later (script [Reads NaN] rest)))
          [AltitudeRead (Reads NaN); Sleep 30])
  /\ (forall cfg flag servo loc si sv sw rest,
      Arduino.try_statement cfg (Arduino.mkVars flag true servo loc)
        (mkWorld si sv sw (script [Reads NaN] rest))
      = mkResult (Normal tt) (Arduino.mkVars flag true servo loc)
          (mkWorld si sv sw (later (script [Reads NaN] rest)))
          [AltitudeRead (Reads NaN)])
  /\ (forall cfg s,
      transition_rule cfg s PosInf
        = match s with Closed => Some Open | Open => None end
      /\ transition_rule cfg s NegInf
         = match s with Open => Some Closed | Closed => None end)
  /\ (forall cfg flag si sv sw rest,
      RaspberryPi.commanded
        (trace (RaspberryPi.cycle cfg (RaspberryPi.mkVars flag true)
                  (mkWorld si sv sw (script [Reads PosInf] rest))))
      = (if flag then [] else [Open])
      /\ RaspberryPi.commanded
           (trace (RaspberryPi.cycle cfg (RaspberryPi.mkVars flag true)
                     (mkWorld si sv sw (script [Reads NegInf] rest))))
         = (if flag then [Closed] else [])).
Proof.
  refine (conj _ (conj _ (conj _ _))).
  - intros cfg [flag p] si sv sw rest. py_run; reflexivity.
  - intros. py_run; reflexivity.
  - intros cfg []; split; reflexivity.
  - intros cfg flag si sv sw rest.
    split; py_run; reflexivity.
Qed.
